(** * A shallow embedding of [src/connect/app.py]

    The script is a thin manager around a vector-database client library.
    The manager's methods are embedded as computations in a small monad
    that threads the process environment, the state of the remote service
    and the console, and whose outcomes are Python's: a returned value or a
    raised exception.  The client library and the Python built-ins the script
    calls are interfaces (type classes): every statement about the manager
    is proved for all their implementations, and two implementations (a
    scripted test double and a reference model of the service) supply the
    concrete runs. *)

From Stdlib Require Import ZArith QArith Qabs Ascii String List Sorted Lia.
From stdpp Require Import gmap strings.
Import ListNotations.

Local Open Scope Z_scope.

(** ** Python values *)

(** The values that travel through the script: identifiers, vectors,
    payloads and the dictionaries built by [search] and [get_info].  A
    Python [dict] keeps insertion order, so it is an association list.
    Floats are idealised as the rationals their literals denote. *)
#[local] Unset Elimination Schemes.
Inductive value : Type :=
| VNone
| VBool (b : bool)
| VInt (n : Z)
| VFloat (x : Q)
| VStr (s : string)
| VList (xs : list value)
| VDict (kvs : list (string * value)).

#[local] Set Elimination Schemes.

Abbreviation dict := (list (string * value)).

(** [d.get(k)]: the value bound to [k], if any. *)
Fixpoint dict_lookup (d : dict) (k : string) : option value :=
  match d with
  | [] => None
  | (k', v) :: d' => if String.eqb k k' then Some v else dict_lookup d' k
  end.

(** [d.get(k, dflt)] *)
Definition dict_get (d : dict) (k : string) (dflt : value) : value :=
  match dict_lookup d k with Some v => v | None => dflt end.

(** Python truthiness, used by [if result['payload']] and
    [if filter_condition]. *)
Definition truthy (v : value) : bool :=
  match v with
  | VNone => false
  | VBool b => b
  | VInt n => negb (n =? 0)
  | VFloat x => negb (Qeq_bool x 0)
  | VStr s => negb (String.eqb s "")
  | VList xs => match xs with [] => false | _ => true end
  | VDict kvs => match kvs with [] => false | _ => true end
  end.

(** [x in xs] for a list of strings. *)
Definition str_in (x : string) (xs : list string) : bool :=
  existsb (String.eqb x) xs.

(** ** Exceptions and outcomes *)

(** An instance of (a subclass of) [Exception]: its class and [str(e)]. *)
Record Exception := mkException { exc_class : string; exc_str : string }.

(** What a [raise] can carry.  [sys.exit(n)] raises [SystemExit], which is
    not an [Exception]: [except Exception] lets it through. *)
Inductive BaseException :=
| Exc (e : Exception)
| SystemExit (code : Z).

Inductive outcome (A : Type) :=
| Ok (a : A)
| Raised (e : BaseException).
Arguments Ok {A} a.
Arguments Raised {A} e.

Definition KeyError (k : string) : Exception :=
  mkException "KeyError" ("'" +:+ k +:+ "'").

Definition AttributeError (msg : string) : Exception :=
  mkException "AttributeError" msg.

(** ** The process: environment, remote service, console *)

Record process (W : Type) := mkProcess {
  environ : gmap string string;   (* os.environ *)
  remote : W;                     (* whatever is behind the client library *)
  stdout : list string            (* the lines printed so far *)
}.
Arguments mkProcess {W}.
Arguments environ {W}.
Arguments remote {W}.
Arguments stdout {W}.

Definition M (W A : Type) : Type := process W -> outcome A * process W.

Definition ret {W A} (a : A) : M W A := fun s => (Ok a, s).

Definition bind {W A B} (m : M W A) (k : A -> M W B) : M W B :=
  fun s => match m s with
           | (Ok a, s') => k a s'
           | (Raised e, s') => (Raised e, s')
           end.

Definition raise {W A} (e : Exception) : M W A := fun s => (Raised (Exc e), s).

(** [sys.exit(code)] *)
Definition sys_exit {W A} (code : Z) : M W A := fun s => (Raised (SystemExit code), s).

(** [try: body / except Exception as e: handler e] *)
Definition try_except {W A} (body : M W A) (handler : Exception -> M W A) : M W A :=
  fun s => match body s with
           | (Raised (Exc e), s') => handler e s'
           | r => r
           end.

(** [print(line)] *)
Definition print {W} (line : string) : M W unit :=
  fun s => (Ok tt, mkProcess (environ s) (remote s) (stdout s ++ [line])).

(** [os.getenv(k)] *)
Definition getenv {W} (k : string) : M W (option string) :=
  fun s => (Ok (environ s !! k), s).

(** A call into the client library: it may change the remote service and
    either returns or raises an [Exception]. *)
Definition call {W A} (f : W -> (Exception + A) * W) : M W A :=
  fun s => match f (remote s) with
           | (inr a, w) => (Ok a, mkProcess (environ s) w (stdout s))
           | (inl e, w) => (Raised (Exc e), mkProcess (environ s) w (stdout s))
           end.

(** A pure library call that may raise (a validating constructor). *)
Definition lift {W A} (r : Exception + A) : M W A :=
  match r with inr a => ret a | inl e => raise e end.

(** [d[k]] *)
Definition getitem {W} (d : dict) (k : string) : M W value :=
  match dict_lookup d k with Some v => ret v | None => raise (KeyError k) end.

Declare Scope py_scope.
Delimit Scope py_scope with py.
Notation "x <- m ;; k" := (bind m (fun x => k))
  (at level 100, m at next level, k at level 200, right associativity) : py_scope.
Notation "m ;; k" := (bind m (fun _ => k))
  (at level 100, k at level 200, right associativity) : py_scope.
Local Open Scope py_scope.

(** ** The client library's data *)

(** [qdrant_client.models.Distance] *)
Inductive Distance := COSINE | EUCLID | DOT | MANHATTAN.

(** [VectorParams(size=..., distance=...)] *)
Record VectorParams := mkVectorParams { vp_size : Z; vp_distance : Distance }.

(** [PointStruct(id=..., vector=..., payload=...)] *)
Record PointStruct := mkPointStruct {
  ps_id : value; ps_vector : value; ps_payload : value }.

(** One hit of a search: [result.id], [result.score], [result.payload]. *)
Record ScoredPoint := mkScoredPoint {
  sp_id : value; sp_score : Q; sp_payload : value }.

(** An entry of [get_collections().collections]. *)
Record CollectionDescription := mkCollectionDescription { cd_name : string }.

(** [info.config.params.vectors]: one unnamed vector space, a dictionary of
    named ones, or nothing. *)
Inductive VectorsConfig :=
| VectorsSingle (p : VectorParams)
| VectorsNamed (ps : list (string * VectorParams))
| VectorsAbsent.

(** The answer of [client.get_collection(name)], as far as the script reads
    it: [info.points_count] and [info.config.params.vectors]. *)
Record CollectionInfo := mkCollectionInfo {
  ci_points_count : value; ci_vectors : VectorsConfig }.

(** ** Interfaces the script is written against *)

(** The Python built-ins whose exact behaviour the script relies on but does
    not define: [int(s)] on a string ([None] for [ValueError]), [str(v)] as
    used by f-strings, [repr(s)], and [format(v, ".3f")]. *)
Class PyBuiltins := {
  py_int : string -> option Z;
  py_str : value -> string;
  py_repr_str : string -> string;
  py_format_3f : value -> Exception + string
}.

(** The [qdrant_client] library.  [W] is the state of everything behind the
    network; a call may change it and either returns or raises an
    [Exception]. *)
Class QdrantLibrary (W : Type) := {
  QdrantClient : Type;
  Filter : Type;
  QdrantClient_init : option string -> Z -> W -> (Exception + QdrantClient) * W;
  PointStruct_init : value -> value -> value -> Exception + PointStruct;
  Filter_init : dict -> Exception + Filter;
  Distance_str : Distance -> string;
  client_get_collections : QdrantClient -> W -> (Exception + list CollectionDescription) * W;
  client_get_collection : QdrantClient -> string -> W -> (Exception + CollectionInfo) * W;
  client_create_collection : QdrantClient -> string -> VectorParams -> W -> (Exception + bool) * W;
  client_upsert : QdrantClient -> string -> list PointStruct -> W -> (Exception + unit) * W;
  client_search : QdrantClient -> string -> list Q -> Z -> option Filter -> W
                  -> (Exception + list ScoredPoint) * W;
  client_delete_collection : QdrantClient -> string -> W -> (Exception + bool) * W
}.

(** ** The manager *)

Section Manager.

Context {W : Type} `{PyBuiltins} `{QdrantLibrary W}.

Record QdrantManager := mkQdrantManager {
  host : option string;
  port : Z;
  client : QdrantClient
}.

(** The [ValueError] of [int(v)] on a string it rejects. *)
Definition port_error (v : string) : Exception :=
  mkException "ValueError"
    ("invalid literal for int() with base 10: " +:+ py_repr_str v).

(** [int(os.getenv('QDRANT_PORT', 6333))] *)
Definition getenv_port : M W Z :=
  p <- getenv "QDRANT_PORT" ;;
  match p with
  | None => ret 6333
  | Some v =>
      match py_int v with
      | Some n => ret n
      | None => raise (port_error v)
      end
  end.

(** [not self.host] *)
Definition host_missing (h : option string) : bool :=
  match h with
  | None => true
  | Some s => String.eqb s ""
  end.

(** [QdrantManager.__init__] *)
Definition QdrantManager_init : M W QdrantManager :=
  h <- getenv "QDRANT_HOST" ;;
  p <- getenv_port ;;
  (if host_missing h
   then print "Error: Set QDRANT_HOST environment variable" ;;
        print "Example: export QDRANT_HOST=13.250.25.109" ;;
        sys_exit 1
   else ret tt) ;;
  try_except
    (c <- call (QdrantClient_init h p) ;;
     call (client_get_collections c) ;;
     ret (mkQdrantManager h p c))
    (fun e => print ("Connection failed: " +:+ exc_str e) ;; sys_exit 1).

(** The loop of [list_collections]; [acc] is [collection_names]. *)
Fixpoint list_collections_loop (self : QdrantManager)
    (cs : list CollectionDescription) (acc : list string) : M W (list string) :=
  match cs with
  | [] => ret acc
  | c :: cs' =>
      info <- call (client_get_collection (client self) (cd_name c)) ;;
      print (cd_name c +:+ ": " +:+ py_str (ci_points_count info) +:+ " points") ;;
      list_collections_loop self cs' (acc ++ [cd_name c])
  end.

Definition list_collections (self : QdrantManager) : M W (list string) :=
  collections <- call (client_get_collections (client self)) ;;
  match collections with
  | [] => print "No collections found" ;; ret []
  | _ => list_collections_loop self collections []
  end.

(** The dictionary literal of [create_collection]. *)
Definition distance_map : gmap string Distance :=
  {[ "Cosine" := COSINE; "Dot" := DOT; "Euclidean" := EUCLID ]}.

Definition create_collection (self : QdrantManager)
    (name : string) (vector_size : Z) (distance : string) : M W unit :=
  try_except
    (call (client_create_collection (client self) name
             (mkVectorParams vector_size
                (default COSINE (distance_map !! distance)))) ;;
     print ("Created collection: " +:+ name))
    (fun e => print ("Failed to create collection: " +:+ exc_str e)).

(** The loop of [insert_points]; [acc] is [qdrant_points]. *)
Fixpoint insert_points_loop (points : list dict) (acc : list PointStruct)
    : M W (list PointStruct) :=
  match points with
  | [] => ret acc
  | point :: points' =>
      i <- getitem point "id" ;;
      v <- getitem point "vector" ;;
      qdrant_point <- lift (PointStruct_init i v (dict_get point "payload" (VDict []))) ;;
      insert_points_loop points' (acc ++ [qdrant_point])
  end.

Definition insert_points (self : QdrantManager)
    (collection_name : string) (points : list dict) : M W unit :=
  qdrant_points <- insert_points_loop points [] ;;
  try_except
    (call (client_upsert (client self) collection_name qdrant_points) ;;
     print ("Inserted " +:+ py_str (VInt (Z.of_nat (length points))) +:+ " points"))
    (fun e => print ("Failed to insert points: " +:+ exc_str e)).

(** The dictionary [search] builds for one hit. *)
Definition search_result (r : ScoredPoint) : dict :=
  [("id", sp_id r); ("score", VFloat (sp_score r)); ("payload", sp_payload r)].

(** [search_filter]: a [Filter] built from the keyword arguments in
    [filter_condition] when that is truthy (a non-empty dictionary), else
    [None]; the constructor may raise. *)
Definition search_filter (filter_condition : option dict) : Exception + option Filter :=
  match filter_condition with
  | Some (kv :: kvs) =>
      match Filter_init (kv :: kvs) with
      | inr f => inr (Some f)
      | inl e => inl e
      end
  | _ => inr None
  end.

Definition search (self : QdrantManager) (collection_name : string)
    (query_vector : list Q) (limit : Z) (filter_condition : option dict)
    : M W (list dict) :=
  try_except
    (f <- lift (search_filter filter_condition) ;;
     results <- call (client_search (client self) collection_name query_vector limit f) ;;
     ret (map search_result results))
    (fun e => print ("Search failed: " +:+ exc_str e) ;; ret []).

(** [info.config.params.vectors.size] and [.distance]: attribute access
    fails on a dictionary of named vectors and on [None]. *)
Definition vectors_attr {A} (f : VectorParams -> A) (attr : string)
    (v : VectorsConfig) : M W A :=
  match v with
  | VectorsSingle p => ret (f p)
  | VectorsNamed _ =>
      raise (AttributeError ("'dict' object has no attribute '" +:+ attr +:+ "'"))
  | VectorsAbsent =>
      raise (AttributeError ("'NoneType' object has no attribute '" +:+ attr +:+ "'"))
  end.

(** [get_info] returns a dictionary, or [None] on failure. *)
Definition get_info (self : QdrantManager) (collection_name : string)
    : M W (option dict) :=
  try_except
    (info <- call (client_get_collection (client self) collection_name) ;;
     sz <- vectors_attr vp_size "size" (ci_vectors info) ;;
     d <- vectors_attr vp_distance "distance" (ci_vectors info) ;;
     ret (Some [("points_count", ci_points_count info);
                ("vector_size", VInt sz);
                ("distance", VStr (Distance_str d))]))
    (fun e => print ("Failed to get info: " +:+ exc_str e) ;; ret None).

Definition delete_collection (self : QdrantManager) (collection_name : string)
    : M W unit :=
  try_except
    (call (client_delete_collection (client self) collection_name) ;;
     print ("Deleted collection: " +:+ collection_name))
    (fun e => print ("Failed to delete collection: " +:+ exc_str e)).

(** ** The demo driver *)

(** The newline character that starts three of the printed headers. *)
Definition nl : string := String (Ascii.ascii_of_nat 10) EmptyString.

(** The first printing loop of [main]: the payload line is printed only for
    a truthy payload.  [i] is the counter of [enumerate(results, 1)]. *)
Fixpoint print_test_results (i : Z) (results : list dict) : M W unit :=
  match results with
  | [] => ret tt
  | result :: results' =>
      rid <- getitem result "id" ;;
      rscore <- getitem result "score" ;;
      score3 <- lift (py_format_3f rscore) ;;
      print (py_str (VInt i) +:+ ". ID: " +:+ py_str rid +:+ ", Score: " +:+ score3) ;;
      rpayload <- getitem result "payload" ;;
      (if truthy rpayload
       then rpayload' <- getitem result "payload" ;; print ("   " +:+ py_str rpayload')
       else ret tt) ;;
      print_test_results (i + 1) results'
  end.

(** The second printing loop of [main]: the payload line is always printed. *)
Fixpoint print_demo_results (i : Z) (results : list dict) : M W unit :=
  match results with
  | [] => ret tt
  | result :: results' =>
      rid <- getitem result "id" ;;
      rscore <- getitem result "score" ;;
      score3 <- lift (py_format_3f rscore) ;;
      print (py_str (VInt i) +:+ ". ID: " +:+ py_str rid +:+ ", Score: " +:+ score3) ;;
      rpayload <- getitem result "payload" ;;
      print ("   " +:+ py_str rpayload) ;;
      print_demo_results (i + 1) results'
  end.

Definition sample_point (i : Z) (v : list Q) (name category : string) : dict :=
  [("id", VInt i);
   ("vector", VList (map VFloat v));
   ("payload", VDict [("name", VStr name); ("category", VStr category)])].

Definition sample_data : list dict :=
  [sample_point 1 [0.1; 0.2; 0.3; 0.4]%Q "item_1" "A";
   sample_point 2 [0.5; 0.6; 0.7; 0.8]%Q "item_2" "B";
   sample_point 3 [0.9; 0.1; 0.5; 0.2]%Q "item_3" "A"].

Definition demo_collection : string := "python_demo".
Definition demo_query : list Q := [0.1; 0.2; 0.3; 0.4]%Q.

(** The demo steps of [main] up to its second search: create the
    collection, insert the sample data, search it. *)
Definition demo_search (qdrant : QdrantManager) : M W (list dict) :=
  create_collection qdrant demo_collection 4 "Dot" ;;
  insert_points qdrant demo_collection sample_data ;;
  print (nl +:+ "Searching " +:+ demo_collection +:+ ":") ;;
  search qdrant demo_collection demo_query 2 None.

Definition main : M W unit :=
  qdrant <- QdrantManager_init ;;
  print "Collections:" ;;
  collections <- list_collections qdrant ;;
  (if str_in "test_collection" collections
   then print (nl +:+ "Searching test_collection:") ;;
        results <- search qdrant "test_collection" [0.2; 0.1; 0.9; 0.7]%Q 3 None ;;
        print_test_results 1 results
   else ret tt) ;;
  print (nl +:+ "Demo - Creating new collection:") ;;
  results <- demo_search qdrant ;;
  print_demo_results 1 results ;;
  delete_collection qdrant demo_collection.

(** The exit status of the interpreter running [main()]: 0 when it returns,
    the code of a [SystemExit], 1 after an uncaught exception. *)
Definition exit_status {A} (o : outcome A) : Z :=
  match o with
  | Ok _ => 0
  | Raised (SystemExit code) => code
  | Raised (Exc _) => 1
  end.

End Manager.

Arguments QdrantManager {W _}.

(** ** A reference implementation of the built-ins *)

(** Enough of [int], [str], [repr] and [format] to run the script on ASCII
    data.  [int_of_string] accepts an optional sign followed by decimal
    digits (Python accepts more: surrounding white space, underscores);
    floats are printed from the rational that idealises them. *)
Module Builtins.

Definition is_digit (c : Ascii.ascii) : bool :=
  let n := Z.of_nat (Ascii.nat_of_ascii c) in (48 <=? n) && (n <=? 57).

Fixpoint digits_value (s : string) (acc : Z) : option Z :=
  match s with
  | EmptyString => Some acc
  | String c s' =>
      if is_digit c
      then digits_value s' (10 * acc + (Z.of_nat (Ascii.nat_of_ascii c) - 48))
      else None
  end.

Definition unsigned_value (s : string) : option Z :=
  match s with
  | EmptyString => None
  | _ => digits_value s 0
  end.

Definition int_of_string (s : string) : option Z :=
  match s with
  | String "-"%char s' => Z.opp <$> unsigned_value s'
  | String "+"%char s' => unsigned_value s'
  | _ => unsigned_value s
  end.

Definition digit_char (d : Z) : Ascii.ascii :=
  Ascii.ascii_of_nat (Z.to_nat (48 + d)).

(** The last [width] decimal digits of [n], most significant first. *)
Fixpoint fixed_digits (width : nat) (n : Z) (acc : string) : string :=
  match width with
  | O => acc
  | S w => fixed_digits w (n / 10) (String (digit_char (n mod 10)) acc)
  end.

(** The decimal digits of a non-negative [n]; [fuel] bounds their number. *)
Fixpoint nat_digits (fuel : nat) (n : Z) (acc : string) : string :=
  match fuel with
  | O => acc
  | S f =>
      let acc' := String (digit_char (n mod 10)) acc in
      if n / 10 =? 0 then acc' else nat_digits f (n / 10) acc'
  end.

Definition string_of_int (n : Z) : string :=
  let a := Z.abs n in
  let ds := nat_digits (S (Z.to_nat (Z.log2 a))) a "" in
  if n <? 0 then "-" +:+ ds else ds.

(** [x * 10^places] rounded to the nearest integer, ties to even. *)
Definition round_scaled (places : nat) (x : Q) : Z :=
  let num := Qnum x * 10 ^ Z.of_nat places in
  let den := Z.pos (Qden x) in
  let q := num / den in
  let r2 := 2 * (num mod den) in
  if r2 <? den then q
  else if den <? r2 then q + 1
  else if Z.even q then q else q + 1.

(** [format(x, ".<places>f")] *)
Definition format_fixed (places : nat) (x : Q) : string :=
  let m := round_scaled places (Qabs x) in
  let scale := 10 ^ Z.of_nat places in
  let body := string_of_int (m / scale) +:+ "." +:+ fixed_digits places (m mod scale) "" in
  if (Qnum x <? 0) && negb (m =? 0) then "-" +:+ body else body.

Definition quote (s : string) : string := "'" +:+ s +:+ "'".

Fixpoint repr (v : value) : string :=
  match v with
  | VNone => "None"
  | VBool b => if b then "True" else "False"
  | VInt n => string_of_int n
  | VFloat x => format_fixed 6 x
  | VStr s => quote s
  | VList xs =>
      "[" +:+
      match xs with
      | [] => ""
      | x :: xs' =>
          repr x +:+
          (fix rest (ys : list value) : string :=
             match ys with
             | [] => ""
             | y :: ys' => ", " +:+ repr y +:+ rest ys'
             end) xs'
      end +:+ "]"
  | VDict kvs =>
      "{" +:+
      match kvs with
      | [] => ""
      | (k, x) :: kvs' =>
          quote k +:+ ": " +:+ repr x +:+
          (fix rest (ys : list (string * value)) : string :=
             match ys with
             | [] => ""
             | (k', y) :: ys' => ", " +:+ quote k' +:+ ": " +:+ repr y +:+ rest ys'
             end) kvs'
      end +:+ "}"
  end.

Definition str (v : value) : string :=
  match v with
  | VStr s => s
  | _ => repr v
  end.

Definition format_3f (v : value) : Exception + string :=
  match v with
  | VFloat x => inr (format_fixed 3 x)
  | VInt n => inr (format_fixed 3 (inject_Z n))
  | VBool b => inr (format_fixed 3 (if b then 1 else 0)%Q)
  | _ => inl (mkException "TypeError" "unsupported format string passed to __format__")
  end.

#[export] Instance reference : PyBuiltins := {
  py_int := int_of_string;
  py_str := str;
  py_repr_str := quote;
  py_format_3f := format_3f
}.

End Builtins.

(** ** A scripted test double of the client library *)

(** The remote side is a queue of canned replies; each network call takes
    the next one, and raises when the queue is empty or the reply is of the
    wrong kind.  Constructing the client and the request models never
    fails. *)
Module Scripted.

Inductive reply :=
| Fails (e : Exception)
| Collections (cs : list CollectionDescription)
| Info (i : CollectionInfo)
| Done (b : bool)
| Upserted
| Hits (rs : list ScoredPoint).

Definition script_error : Exception :=
  mkException "AssertionError" "unexpected call".

Definition next {A} (pick : reply -> option A) (w : list reply)
    : (Exception + A) * list reply :=
  match w with
  | [] => (inl script_error, [])
  | Fails e :: w' => (inl e, w')
  | r :: w' => (match pick r with Some a => inr a | None => inl script_error end, w')
  end.

#[global] Instance library : QdrantLibrary (list reply) := {
  QdrantClient := unit;
  Filter := dict;
  QdrantClient_init := fun _ _ w => (inr tt, w);
  PointStruct_init := fun i v p => inr (mkPointStruct i v p);
  Filter_init := fun d => inr d;
  Distance_str := fun d =>
    match d with
    | COSINE => "Cosine" | EUCLID => "Euclid" | DOT => "Dot" | MANHATTAN => "Manhattan"
    end;
  client_get_collections := fun _ =>
    next (fun r => match r with Collections cs => Some cs | _ => None end);
  client_get_collection := fun _ _ =>
    next (fun r => match r with Info i => Some i | _ => None end);
  client_create_collection := fun _ _ _ =>
    next (fun r => match r with Done b => Some b | _ => None end);
  client_upsert := fun _ _ _ =>
    next (fun r => match r with Upserted => Some tt | _ => None end);
  client_search := fun _ _ _ _ _ =>
    next (fun r => match r with Hits rs => Some rs | _ => None end);
  client_delete_collection := fun _ _ =>
    next (fun r => match r with Done b => Some b | _ => None end)
}.

Definition manager : QdrantManager := mkQdrantManager (Some "localhost") 6333 tt.

Definition start (env : gmap string string) (script : list reply)
    : process (list reply) :=
  mkProcess env script [].

Definition refused : Exception :=
  mkException "ResponseHandlingException" "[Errno 111] Connection refused".

End Scripted.

(** ** A reference model of the remote service *)

Module Service.

Record point := mkPoint { pt_id : value; pt_vector : list Q; pt_payload : value }.

Record collection := mkCollection {
  col_params : VectorParams;
  col_points : list point
}.

Definition unexpected (msg : string) : Exception :=
  mkException "UnexpectedResponse" msg.

Definition not_found (name : string) : Exception :=
  unexpected ("Not found: Collection `" +:+ name +:+ "` doesn't exist!").

Definition already_exists (name : string) : Exception :=
  unexpected ("Wrong input: Collection `" +:+ name +:+ "` already exists!").

Definition bad_dimension : Exception :=
  unexpected "Wrong input: Vector dimension error".

Definition invalid (what : string) : Exception :=
  mkException "ValidationError" ("validation error for " +:+ what).

(** Identifiers are integers or strings. *)
Definition id_eqb (a b : value) : bool :=
  match a, b with
  | VInt m, VInt n => m =? n
  | VStr s, VStr t => String.eqb s t
  | _, _ => false
  end.

Definition valid_id (i : value) : bool :=
  match i with
  | VInt n => 0 <=? n
  | VStr _ => true
  | _ => false
  end.

Definition number (v : value) : option Q :=
  match v with
  | VFloat x => Some x
  | VInt n => Some (inject_Z n)
  | _ => None
  end.

Fixpoint numbers (vs : list value) : option (list Q) :=
  match vs with
  | [] => Some []
  | v :: vs' =>
      match number v, numbers vs' with
      | Some x, Some xs => Some (x :: xs)
      | _, _ => None
      end
  end.

Definition vector_of (v : value) : option (list Q) :=
  match v with
  | VList vs => numbers vs
  | _ => None
  end.

Definition valid_payload (p : value) : bool :=
  match p with
  | VDict _ | VNone => true
  | _ => false
  end.

(** The validating constructor of a point. *)
Definition point_struct (i v p : value) : Exception + PointStruct :=
  if valid_id i && bool_decide (is_Some (vector_of v)) && valid_payload p
  then inr (mkPointStruct i v p)
  else inl (invalid "PointStruct").

(** A filter is a list of [key = value] requirements on the payload, written
    [{"must": [{"key": k, "match": {"value": v}}, ...]}]. *)
Definition condition_of (c : value) : option (string * value) :=
  match c with
  | VDict [("key", VStr k); ("match", VDict [("value", v)])] => Some (k, v)
  | _ => None
  end.

Fixpoint conditions_of (cs : list value) : option (list (string * value)) :=
  match cs with
  | [] => Some []
  | c :: cs' =>
      match condition_of c, conditions_of cs' with
      | Some kv, Some kvs => Some (kv :: kvs)
      | _, _ => None
      end
  end.

Definition filter_of (d : dict) : Exception + list (string * value) :=
  match d with
  | [("must", VList cs)] =>
      match conditions_of cs with
      | Some kvs => inr kvs
      | None => inl (invalid "Filter")
      end
  | _ => inl (invalid "Filter")
  end.

Definition scalar_eqb (a b : value) : bool :=
  match a, b with
  | VInt m, VInt n => m =? n
  | VStr s, VStr t => String.eqb s t
  | VBool x, VBool y => Bool.eqb x y
  | _, _ => false
  end.

Definition satisfies (payload : value) (kv : string * value) : bool :=
  match payload with
  | VDict d =>
      match dict_lookup d (fst kv) with
      | Some v => scalar_eqb v (snd kv)
      | None => false
      end
  | _ => false
  end.

Definition passes (f : option (list (string * value))) (p : point) : bool :=
  match f with
  | None => true
  | Some kvs => forallb (satisfies (pt_payload p)) kvs
  end.

(** Scores.  The dot product is exact; the metrics that need a square root
    use a rational approximation of it, and distances are negated so that a
    larger score always means a closer vector. *)
Fixpoint dot (a b : list Q) : Q :=
  match a, b with
  | x :: a', y :: b' => (x * y + dot a' b')%Q
  | _, _ => 0%Q
  end.

Definition sqrt_approx (x : Q) : Q :=
  (Z.sqrt (Qnum x * 10 ^ 12 / Z.pos (Qden x)) # 1000000)%Q.

Fixpoint taxicab (a b : list Q) : Q :=
  match a, b with
  | x :: a', y :: b' => (Qabs (x - y) + taxicab a' b')%Q
  | _, _ => 0%Q
  end.

Definition difference (a b : list Q) : list Q :=
  map (fun xy => (fst xy - snd xy)%Q) (combine a b).

Definition score (m : Distance) (q v : list Q) : Q :=
  Qred match m with
       | DOT => dot q v
       | COSINE => (dot q v / (sqrt_approx (dot q q) * sqrt_approx (dot v v)))%Q
       | EUCLID => (- sqrt_approx (dot (difference q v) (difference q v)))%Q
       | MANHATTAN => (- taxicab q v)%Q
       end.

Definition hit (m : Distance) (q : list Q) (p : point) : ScoredPoint :=
  mkScoredPoint (pt_id p) (score m q (pt_vector p)) (pt_payload p).

(** Insertion into a list sorted by descending score; among equal scores
    the earlier point stays first. *)
Fixpoint insert_hit (h : ScoredPoint) (hs : list ScoredPoint) : list ScoredPoint :=
  match hs with
  | [] => [h]
  | h' :: hs' =>
      if Qle_bool (sp_score h') (sp_score h)
      then h :: hs
      else h' :: insert_hit h hs'
  end.

Definition rank (hs : list ScoredPoint) : list ScoredPoint :=
  fold_right insert_hit [] hs.

(** Insert-or-replace keyed by the identifier. *)
Fixpoint upsert_point (p : point) (ps : list point) : list point :=
  match ps with
  | [] => [p]
  | p' :: ps' =>
      if id_eqb (pt_id p) (pt_id p') then p :: ps' else p' :: upsert_point p ps'
  end.

Definition point_of (size : Z) (s : PointStruct) : option point :=
  match vector_of (ps_vector s) with
  | Some v =>
      if Z.of_nat (length v) =? size
      then Some (mkPoint (ps_id s) v (ps_payload s))
      else None
  | None => None
  end.

Fixpoint points_of (size : Z) (ss : list PointStruct) : option (list point) :=
  match ss with
  | [] => Some []
  | s :: ss' =>
      match point_of size s, points_of size ss' with
      | Some p, Some ps => Some (p :: ps)
      | _, _ => None
      end
  end.

Definition get_collections (w : gmap string collection)
    : (Exception + list CollectionDescription) * gmap string collection :=
  (inr (map (fun kv => mkCollectionDescription (fst kv)) (map_to_list w)), w).

Definition get_collection (name : string) (w : gmap string collection)
    : (Exception + CollectionInfo) * gmap string collection :=
  match w !! name with
  | Some c =>
      (inr (mkCollectionInfo (VInt (Z.of_nat (length (col_points c))))
              (VectorsSingle (col_params c))), w)
  | None => (inl (not_found name), w)
  end.

Definition create (name : string) (params : VectorParams) (w : gmap string collection)
    : (Exception + bool) * gmap string collection :=
  match w !! name with
  | Some _ => (inl (already_exists name), w)
  | None =>
      if 0 <? vp_size params
      then (inr true, <[name := mkCollection params []]> w)
      else (inl (unexpected "Wrong input: vector size must be positive"), w)
  end.

Definition upsert (name : string) (ss : list PointStruct) (w : gmap string collection)
    : (Exception + unit) * gmap string collection :=
  match w !! name with
  | None => (inl (not_found name), w)
  | Some c =>
      match points_of (vp_size (col_params c)) ss with
      | None => (inl bad_dimension, w)
      | Some ps =>
          (inr tt,
           <[name := mkCollection (col_params c)
                       (fold_left (fun acc p => upsert_point p acc) ps (col_points c))]> w)
      end
  end.

Definition search (name : string) (q : list Q) (limit : Z)
    (f : option (list (string * value))) (w : gmap string collection)
    : (Exception + list ScoredPoint) * gmap string collection :=
  match w !! name with
  | None => (inl (not_found name), w)
  | Some c =>
      if Z.of_nat (length q) =? vp_size (col_params c)
      then (inr (firstn (Z.to_nat limit)
                   (rank (map (hit (vp_distance (col_params c)) q)
                            (List.filter (passes f) (col_points c))))), w)
      else (inl bad_dimension, w)
  end.

Definition delete (name : string) (w : gmap string collection)
    : (Exception + bool) * gmap string collection :=
  match w !! name with
  | Some _ => (inr true, delete name w)
  | None => (inl (not_found name), w)
  end.

(** Modelled from the spec: the remote vector-database service and the
    client library in front of it, which are not part of the repository.
    Collections are unique by name and carry a positive dimensionality and a
    metric; creating a duplicate name, and any operation on a name that does
    not exist, fails; an upsert inserts or replaces points keyed by their
    identifier; a search returns at most [limit] hits ordered by descending
    score, the score being determined by the collection's metric, over the
    points that pass the optional payload filter. *)
#[global] Instance library : QdrantLibrary (gmap string collection) := {
  QdrantClient := unit;
  Filter := list (string * value);
  QdrantClient_init := fun _ _ w => (inr tt, w);
  PointStruct_init := point_struct;
  Filter_init := filter_of;
  Distance_str := fun d =>
    match d with
    | COSINE => "Cosine" | EUCLID => "Euclid" | DOT => "Dot" | MANHATTAN => "Manhattan"
    end;
  client_get_collections := fun _ => get_collections;
  client_get_collection := fun _ => get_collection;
  client_create_collection := fun _ => create;
  client_upsert := fun _ => upsert;
  client_search := fun _ => search;
  client_delete_collection := fun _ => delete
}.

Definition manager : QdrantManager := mkQdrantManager (Some "localhost") 6333 tt.

Definition start (env : gmap string string) (w : gmap string collection)
    : process (gmap string collection) :=
  mkProcess env w [].

End Service.


(** ** Vocabulary of the statements *)

Section Vocabulary.

Context {W : Type} `{PyBuiltins} `{QdrantLibrary W}.

(** The process after a library call left the remote side in [w] and one
    more line was printed. *)
Definition logged (s : process W) (w : W) (line : string) : process W :=
  mkProcess (environ s) w (stdout s ++ [line]).

(** The enumeration of metrics as the specification words it: three names,
    and cosine for everything else. *)
Definition enumerated_distance (distance : string) : Distance :=
  if String.eqb distance "Cosine" then COSINE
  else if String.eqb distance "Dot" then DOT
  else if String.eqb distance "Euclidean" then EUCLID
  else COSINE.

(** An input point is forwarded as [qp]: its identifier and vector are
    present, its payload is the one given or else the empty mapping, and the
    point constructor accepts them. *)
Definition forwarded (point : dict) (qp : PointStruct) : Prop :=
  exists i v,
    dict_lookup point "id" = Some i /\
    dict_lookup point "vector" = Some v /\
    PointStruct_init i v
      (match dict_lookup point "payload" with Some p => p | None => VDict [] end)
    = inr qp.

(** The underlying search operation: building the filter, then the
    library's search. *)
Definition search_attempt (self : QdrantManager) (name : string) (q : list Q)
    (limit : Z) (filter_condition : option dict) (w : W)
    : (Exception + list ScoredPoint) * W :=
  match search_filter filter_condition with
  | inl e => (inl e, w)
  | inr f => client_search (client self) name q limit f w
  end.

(** The connection attempt of the constructor: building the client, then the
    list-collections probe. *)
Definition connect_probe (h : option string) (p : Z) (w : W)
    : (Exception + QdrantClient) * W :=
  match QdrantClient_init h p w with
  | (inl e, w1) => (inl e, w1)
  | (inr c, w1) =>
      match client_get_collections c w1 with
      | (inl e, w2) => (inl e, w2)
      | (inr _, w2) => (inr c, w2)
      end
  end.

(** The port variable is usable: unset, or a string [int] accepts. *)
Definition port_readable (env : gmap string string) : Prop :=
  match env !! "QDRANT_PORT" with
  | None => True
  | Some v => is_Some (py_int v)
  end.

(** The port the constructor reads from a usable environment. *)
Definition port_of (env : gmap string string) : Z :=
  match env !! "QDRANT_PORT" with
  | None => 6333
  | Some v => default 6333 (py_int v)
  end.

(** The per-collection info fetch of [list_collections] fails with [e]
    somewhere along the list, the fetches before it having succeeded. *)
Inductive info_fetch_fails (self : QdrantManager)
    : list CollectionDescription -> W -> Exception -> Prop :=
| fetch_fails_here c cs w w' e :
    client_get_collection (client self) (cd_name c) w = (inl e, w') ->
    info_fetch_fails self (c :: cs) w e
| fetch_fails_later c cs w w' i e :
    client_get_collection (client self) (cd_name c) w = (inr i, w') ->
    info_fetch_fails self cs w' e ->
    info_fetch_fails self (c :: cs) w e.

(** The listing of [list_collections] fails with [e]: in the
    list-collections call itself, or in an info fetch of its loop. *)
Definition listing_fails (self : QdrantManager) (w : W) (e : Exception) : Prop :=
  (exists w', client_get_collections (client self) w = (inl e, w')) \/
  (exists cs w', client_get_collections (client self) w = (inr cs, w') /\
                 info_fetch_fails self cs w' e).

(** A computation does not let an [Exception] escape. *)
Definition swallows {A} (m : M W A) : Prop :=
  forall s e, fst (m s) <> Raised (Exc e).

End Vocabulary.

(** ** Reading results, and the concrete runs *)

(** The identifier and the score of a dictionary returned by [search]. *)
Definition result_id (r : dict) : value := dict_get r "id" VNone.

Definition result_score (r : dict) : Q :=
  match dict_lookup r "score" with
  | Some (VFloat x) => x
  | _ => 0%Q
  end.

(** Scores in descending order. *)
Definition descending (xs : list Q) : Prop :=
  StronglySorted (fun a b => (b <= a)%Q) xs.

(** The point structures [insert_points] builds from [sample_data]. *)
Definition sample_structs : list PointStruct :=
  map (fun p => mkPointStruct (dict_get p "id" VNone) (dict_get p "vector" VNone)
                  (dict_get p "payload" VNone))
      sample_data.

(** What the demo search returns on the reference service. *)
Definition demo_results : list dict :=
  [[("id", VInt 2); ("score", VFloat (7 # 10));
    ("payload", VDict [("name", VStr "item_2"); ("category", VStr "B")])];
   [("id", VInt 3); ("score", VFloat (17 # 50));
    ("payload", VDict [("name", VStr "item_3"); ("category", VStr "A")])]].

Definition host_env : gmap string string := {[ "QDRANT_HOST" := "localhost" ]}.

(** A reference service with no collection. *)
Definition fresh_server : process (gmap string Service.collection) :=
  Service.start host_env ∅.

(** A reference service that already has an 8-dimensional ["docs"]. *)
Definition server_with_docs : process (gmap string Service.collection) :=
  Service.start host_env
    {[ "docs" := Service.mkCollection (mkVectorParams 8 COSINE) [] ]}.

(** An input point without an identifier. *)
Definition point_without_id : dict :=
  [("vector", VList (map VFloat [0.1; 0.2; 0.3; 0.4]%Q))].

(** A scripted service about to accept an upsert. *)
Definition accepting_upsert : process (list Scripted.reply) :=
  Scripted.start host_env [Scripted.Upserted].

(** No host, and a port that is not a number. *)
Definition bad_port_only : process (list Scripted.reply) :=
  Scripted.start {[ "QDRANT_PORT" := "abc" ]} [].

(** A host, and a port that is not a number. *)
Definition bad_port_with_host : process (list Scripted.reply) :=
  Scripted.start (<[ "QDRANT_PORT" := "abc" ]> host_env) [Scripted.Collections []].

(** A scripted service that refuses the first call. *)
Definition unreachable : process (list Scripted.reply) :=
  Scripted.start host_env [Scripted.Fails Scripted.refused].

(** A scripted service that lists two collections, answers the info fetch
    for the first and fails the one for the second. *)
Definition vanishing_collection : process (list Scripted.reply) :=
  Scripted.start host_env
    [Scripted.Collections [mkCollectionDescription "a"; mkCollectionDescription "b"];
     Scripted.Info (mkCollectionInfo (VInt 3)
                      (VectorsSingle (mkVectorParams 4 COSINE)));
     Scripted.Fails Scripted.refused].

(** A reference service holding only the demo collection, empty. *)
Definition server_with_demo : process (gmap string Service.collection) :=
  Service.start host_env
    {[ demo_collection := Service.mkCollection (mkVectorParams 4 DOT) [] ]}.

(** ** Vocabulary of the further statements *)

Section MoreVocabulary.

Context {W : Type} `{PyBuiltins} `{QdrantLibrary W}.

(** The info fetches of the loop of [list_collections], one after the
    other, stopping at the first that fails. *)
Fixpoint fetch_infos (self : QdrantManager) (cs : list CollectionDescription) (w : W)
    : (Exception + list CollectionInfo) * W :=
  match cs with
  | [] => (inr [], w)
  | c :: cs' =>
      match client_get_collection (client self) (cd_name c) w with
      | (inl e, w') => (inl e, w')
      | (inr i, w') =>
          match fetch_infos self cs' w' with
          | (inl e, w'') => (inl e, w'')
          | (inr infos, w'') => (inr (i :: infos), w'')
          end
      end
  end.

(** The summary line of one collection, and of a list of them. *)
Definition listing_line (c : CollectionDescription) (info : CollectionInfo) : string :=
  cd_name c +:+ ": " +:+ py_str (ci_points_count info) +:+ " points".

Fixpoint listing_lines (cs : list CollectionDescription) (infos : list CollectionInfo)
    : list string :=
  match cs, infos with
  | c :: cs', i :: infos' => listing_line c i :: listing_lines cs' infos'
  | _, _ => []
  end.

(** The lines of the two printing loops of [main] for a list of hits, when
    [fmt] is what [format(x, ".3f")] gives on floats. *)
Definition hit_line (fmt : Q -> string) (i : Z) (h : ScoredPoint) : string :=
  py_str (VInt i) +:+ ". ID: " +:+ py_str (sp_id h) +:+ ", Score: " +:+ fmt (sp_score h).

Definition payload_line (h : ScoredPoint) : string := "   " +:+ py_str (sp_payload h).

Fixpoint demo_lines (fmt : Q -> string) (i : Z) (hits : list ScoredPoint) : list string :=
  match hits with
  | [] => []
  | h :: hits' => hit_line fmt i h :: payload_line h :: demo_lines fmt (i + 1) hits'
  end.

Fixpoint test_lines (fmt : Q -> string) (i : Z) (hits : list ScoredPoint) : list string :=
  match hits with
  | [] => []
  | h :: hits' =>
      hit_line fmt i h ::
      (if truthy (sp_payload h) then [payload_line h] else []) ++
      test_lines fmt (i + 1) hits'
  end.

(** What [main] goes on to do once the manager is built and the
    collections are listed. *)
Definition main_after_listing (qdrant : QdrantManager) (collections : list string)
    : M W unit :=
  (if str_in "test_collection" collections
   then print (nl +:+ "Searching test_collection:") ;;
        results <- search qdrant "test_collection" [0.2; 0.1; 0.9; 0.7]%Q 3 None ;;
        print_test_results 1 results
   else ret tt) ;;
  print (nl +:+ "Demo - Creating new collection:") ;;
  results <- demo_search qdrant ;;
  print_demo_results 1 results ;;
  delete_collection qdrant demo_collection.

(** A computation returns normally in every state, with a value in [P]. *)
Definition returns_with {A} (P : A -> Prop) (m : M W A) : Prop :=
  forall s, exists a s', m s = (Ok a, s') /\ P a.


End MoreVocabulary.

(** A scripted service that answers the probe, lists two collections and
    answers both info fetches. *)
Definition two_collections : process (list Scripted.reply) :=
  Scripted.start host_env
    [Scripted.Collections [mkCollectionDescription "a"; mkCollectionDescription "b"];
     Scripted.Info (mkCollectionInfo (VInt 3) (VectorsSingle (mkVectorParams 4 COSINE)));
     Scripted.Info (mkCollectionInfo VNone (VectorsSingle (mkVectorParams 8 DOT)))].

(** A scripted service about to describe a collection of named vectors. *)
Definition named_vectors : process (list Scripted.reply) :=
  Scripted.start host_env
    [Scripted.Info (mkCollectionInfo (VInt 5)
                      (VectorsNamed [("image", mkVectorParams 512 COSINE)]))].

(** A scripted service about to describe an ordinary collection. *)
Definition one_info : process (list Scripted.reply) :=
  Scripted.start host_env
    [Scripted.Info (mkCollectionInfo (VInt 5) (VectorsSingle (mkVectorParams 4 EUCLID)))].

(** Two hits, the second without payload. *)
Definition two_hits : list ScoredPoint :=
  [mkScoredPoint (VInt 7) (9 # 10) (VDict [("name", VStr "x")]);
   mkScoredPoint (VStr "u-1") (1 # 2) VNone].

(** A scripted service about to answer a search with [two_hits]. *)
Definition answering_search : process (list Scripted.reply) :=
  Scripted.start host_env [Scripted.Hits two_hits].

(** A filter dictionary the reference library rejects. *)
Definition bogus_filter : dict := [("bogus", VNone)].

(** A point that has an identifier but no vector. *)
Definition point_without_vector : dict := [("id", VInt 9)].

(** A host and a port that is a number; the probe is answered. *)
Definition custom_port : process (list Scripted.reply) :=
  Scripted.start (<[ "QDRANT_PORT" := "6334" ]> host_env) [Scripted.Collections []].

(** A scripted service that answers the probe and then refuses the
    listing. *)
Definition lost_after_probe : process (list Scripted.reply) :=
  Scripted.start host_env [Scripted.Collections []; Scripted.Fails Scripted.refused].

(** ** Properties of the manager, for every client library *)

Section Properties.

Context {W : Type} `{PyBuiltins} `{QdrantLibrary W}.

Implicit Types (self : QdrantManager) (s : process W) (e : Exception).

Ltac run :=
  unfold try_except, bind, call, print, lift, raise, ret, sys_exit, getenv, logged;
  cbn [fst snd environ remote stdout].

Lemma distance_map_enumerated (distance : string) :
  default COSINE (distance_map !! distance) = enumerated_distance distance.
Proof.
  unfold distance_map, enumerated_distance.
  destruct (String.eqb_spec distance "Cosine") as [->|n1]; [reflexivity|].
  rewrite lookup_insert_ne by congruence.
  destruct (String.eqb_spec distance "Dot") as [->|n2]; [reflexivity|].
  rewrite lookup_insert_ne by congruence.
  destruct (String.eqb_spec distance "Euclidean") as [->|n3]; [reflexivity|].
  rewrite lookup_singleton_ne by congruence.
  reflexivity.
Qed.

(** What [create_collection] does, by the outcome of the library call. *)
Lemma create_collection_cases self (name : string) (vector_size : Z)
    (distance : string) s :
  create_collection self name vector_size distance s =
  match client_create_collection (client self) name
          (mkVectorParams vector_size (default COSINE (distance_map !! distance)))
          (remote s) with
  | (inr _, w) => (Ok tt, logged s w ("Created collection: " +:+ name))
  | (inl e, w) => (Ok tt, logged s w ("Failed to create collection: " +:+ exc_str e))
  end.
Proof.
  unfold create_collection. run.
  destruct (client_create_collection _ _ _ _) as [[e|b] w]; reflexivity.
Qed.

(** C2. [create_collection] asks the library for a collection whose metric
    is the one the enumeration gives to the distance string (cosine for
    "Cosine" and for every string outside it, dot product for "Dot",
    Euclidean for "Euclidean"); it returns normally whatever the library
    does and prints the same single line, success or failure, in every
    case. *)
Theorem create_collection_metric self (name : string) (vector_size : Z)
    (distance : string) s :
  create_collection self name vector_size distance s =
  match client_create_collection (client self) name
          (mkVectorParams vector_size (enumerated_distance distance)) (remote s) with
  | (inr _, w) => (Ok tt, logged s w ("Created collection: " +:+ name))
  | (inl e, w) => (Ok tt, logged s w ("Failed to create collection: " +:+ exc_str e))
  end.
Proof. rewrite create_collection_cases. now rewrite distance_map_enumerated. Qed.

Lemma enumerated_distance_other (distance : string) :
  distance <> "Cosine" -> distance <> "Dot" -> distance <> "Euclidean" ->
  enumerated_distance distance = COSINE.
Proof.
  intros n1 n2 n3. unfold enumerated_distance.
  destruct (String.eqb_spec distance "Cosine"); [reflexivity|].
  destruct (String.eqb_spec distance "Dot"); [contradiction|].
  destruct (String.eqb_spec distance "Euclidean"); [contradiction|reflexivity].
Qed.

Lemma dict_get_payload (point : dict) :
  dict_get point "payload" (VDict []) =
  match dict_lookup point "payload" with Some p => p | None => VDict [] end.
Proof. reflexivity. Qed.

(** The loop of [insert_points] on points that are all forwarded: it
    collects their point structures in order and touches nothing else. *)
Lemma insert_points_loop_forwarded (points : list dict) (qps : list PointStruct) :
  Forall2 forwarded points qps ->
  forall acc s, insert_points_loop points acc s = (Ok (acc ++ qps), s).
Proof.
  induction 1 as [|point qp points qps (i & v & Hi & Hv & Hp) _ IH]; intros acc s.
  - cbn. run. now rewrite app_nil_r.
  - cbn [insert_points_loop]. unfold getitem. run.
    rewrite Hi; cbn. rewrite Hv; cbn. rewrite dict_get_payload, Hp; cbn.
    rewrite IH. now rewrite <- app_assoc.
Qed.

(** What [insert_points] does once its loop has built the batch. *)
Lemma insert_points_cases self (collection_name : string)
    (points : list dict) (qps : list PointStruct) s :
  insert_points_loop points [] s = (Ok qps, s) ->
  insert_points self collection_name points s =
  match client_upsert (client self) collection_name qps (remote s) with
  | (inr _, w) =>
      (Ok tt, logged s w ("Inserted " +:+ py_str (VInt (Z.of_nat (length points)))
                          +:+ " points"))
  | (inl e, w) => (Ok tt, logged s w ("Failed to insert points: " +:+ exc_str e))
  end.
Proof.
  intros Hloop. unfold insert_points, bind at 1. rewrite Hloop. run.
  destruct (client_upsert _ _ _ _) as [[e|u] w]; reflexivity.
Qed.

(** C3, amended. When every input point has an identifier and a vector and
    is accepted by the point constructor, [insert_points] forwards all of
    them, in order, in a single upsert, a point with no payload being given
    the empty mapping; whatever the upsert does, the call returns normally
    with no value, having printed one line: the count on success, the
    failure otherwise. *)
Theorem insert_points_forwards self (collection_name : string)
    (points : list dict) (qps : list PointStruct) s :
  Forall2 forwarded points qps ->
  insert_points self collection_name points s =
  match client_upsert (client self) collection_name qps (remote s) with
  | (inr _, w) =>
      (Ok tt, logged s w ("Inserted " +:+ py_str (VInt (Z.of_nat (length points)))
                          +:+ " points"))
  | (inl e, w) => (Ok tt, logged s w ("Failed to insert points: " +:+ exc_str e))
  end.
Proof.
  intros Hfw. apply insert_points_cases.
  apply (insert_points_loop_forwarded _ _ Hfw []).
Qed.

(** What [search] does, by the outcome of the underlying operation. *)
Lemma search_cases self (name : string) (q : list Q) (limit : Z)
    (filter_condition : option dict) s :
  search self name q limit filter_condition s =
  match search_attempt self name q limit filter_condition (remote s) with
  | (inr results, w) =>
      (Ok (map search_result results), mkProcess (environ s) w (stdout s))
  | (inl e, w) => (Ok [], logged s w ("Search failed: " +:+ exc_str e))
  end.
Proof.
  unfold search, search_attempt. run.
  destruct (search_filter filter_condition) as [e|f]; cbn.
  - destruct s; reflexivity.
  - destruct (client_search _ _ _ _ _ _) as [[e|rs] w]; reflexivity.
Qed.

(** C4. When the underlying search operation fails, for whatever reason,
    [search] returns the empty sequence and only logs the failure; the value
    returned is the one a successful search without hits returns, in any
    state and for any arguments. *)
Theorem search_failure_is_empty self (name : string) (q : list Q) (limit : Z)
    (filter_condition : option dict) s e (w : W) :
  search_attempt self name q limit filter_condition (remote s) = (inl e, w) ->
  search self name q limit filter_condition s
    = (Ok [], logged s w ("Search failed: " +:+ exc_str e)) /\
  forall self' name' q' limit' filter' s' w',
    search_attempt self' name' q' limit' filter' (remote s') = (inr [], w') ->
    fst (search self' name' q' limit' filter' s')
    = fst (search self name q limit filter_condition s).
Proof.
  intros Hfail. rewrite search_cases, Hfail. split; [reflexivity|].
  intros self' name' q' limit' filter' s' w' Hempty.
  now rewrite search_cases, Hempty.
Qed.

(** What [delete_collection] does, by the outcome of the library call. *)
Lemma delete_collection_cases self (name : string) s :
  delete_collection self name s =
  match client_delete_collection (client self) name (remote s) with
  | (inr _, w) => (Ok tt, logged s w ("Deleted collection: " +:+ name))
  | (inl e, w) => (Ok tt, logged s w ("Failed to delete collection: " +:+ exc_str e))
  end.
Proof.
  unfold delete_collection. run.
  destruct (client_delete_collection _ _ _) as [[e|b] w]; reflexivity.
Qed.

(** C7. Two calls of [delete_collection] with the same name, the second of
    which fails in the library: both return normally with no value, and the
    second one's failure shows only as a printed line. *)
Theorem delete_collection_twice self (name : string) s e (w : W) :
  client_delete_collection (client self) name
    (remote (snd (delete_collection self name s))) = (inl e, w) ->
  fst (delete_collection self name s) = Ok tt /\
  delete_collection self name (snd (delete_collection self name s))
    = (Ok tt, logged (snd (delete_collection self name s)) w
                ("Failed to delete collection: " +:+ exc_str e)).
Proof.
  intros Hsecond. split.
  - rewrite delete_collection_cases.
    destruct (client_delete_collection _ _ (remote s)) as [[e1|b] w1]; reflexivity.
  - rewrite (delete_collection_cases self name (snd _)), Hsecond. reflexivity.
Qed.

(** C8. When the server reports no collection, [list_collections] returns
    the empty sequence, raising nothing, after printing that none was
    found; no further library call is made. *)
Theorem list_collections_none self s (w : W) :
  client_get_collections (client self) (remote s) = (inr [], w) ->
  list_collections self s = (Ok [], logged s w "No collections found").
Proof.
  intros Hnone. unfold list_collections. run. rewrite Hnone. reflexivity.
Qed.

(** An info fetch that fails makes the loop of [list_collections] raise. *)
Lemma list_collections_loop_fails self (cs : list CollectionDescription) (w : W) e :
  info_fetch_fails self cs w e ->
  forall acc s, remote s = w ->
    fst (list_collections_loop self cs acc s) = Raised (Exc e).
Proof.
  induction 1 as [c cs w w' e Hget | c cs w w' i e Hget _ IH]; intros acc s <-.
  - cbn [list_collections_loop]. run. rewrite Hget. reflexivity.
  - cbn [list_collections_loop]. run. rewrite Hget. cbn. now apply IH.
Qed.

(** A [try] whose handler raises nothing lets no [Exception] escape. *)
Lemma try_except_swallows {A} (body : M W A) (handler : Exception -> M W A) :
  (forall e, swallows (handler e)) -> swallows (try_except body handler).
Proof.
  intros Hh s e. unfold try_except.
  destruct (body s) as [[a|[e'|code]] s'] eqn:Hb; cbn; try discriminate.
  apply Hh.
Qed.

Lemma print_swallows (line : string) : swallows (W := W) (print line).
Proof. intros s e. discriminate. Qed.

Lemma print_ret_swallows {A} (line : string) (a : A) :
  swallows (W := W) (print line ;; ret a).
Proof. intros s e. discriminate. Qed.

Lemma create_collection_swallows self (name : string) (size : Z) (distance : string) :
  swallows (create_collection self name size distance).
Proof. apply try_except_swallows. intros e. apply print_swallows. Qed.

Lemma search_swallows self (name : string) (q : list Q) (limit : Z)
    (filter_condition : option dict) :
  swallows (search self name q limit filter_condition).
Proof. apply try_except_swallows. intros e. apply print_ret_swallows. Qed.

Lemma get_info_swallows self (name : string) : swallows (get_info self name).
Proof. apply try_except_swallows. intros e. apply print_ret_swallows. Qed.

Lemma delete_collection_swallows self (name : string) :
  swallows (delete_collection self name).
Proof. apply try_except_swallows. intros e. apply print_swallows. Qed.

(** An exception out of [insert_points] comes from shaping the points,
    never from the upsert. *)
Lemma insert_points_raises_in_loop self (name : string) (points : list dict) s e :
  fst (insert_points self name points s) = Raised (Exc e) ->
  fst (insert_points_loop points [] s) = Raised (Exc e).
Proof.
  unfold insert_points, bind at 1.
  destruct (insert_points_loop points [] s) as [[qps|e'] s'] eqn:Hloop; cbn [fst].
  - intros Hr. exfalso. revert Hr.
    apply (try_except_swallows _ _ (fun e0 => print_swallows _)).
  - cbn. intros [= ->]. reflexivity.
Qed.

(** C9. [list_collections] has no handler: a failure of the
    list-collections call, or of an info fetch inside its loop, reaches the
    caller as the exception the library raised.  Every other operation of
    the manager keeps the library's failures to itself: [create_collection],
    [search], [get_info] and [delete_collection] let no exception escape,
    and [insert_points] none that comes from the upsert. *)
Theorem list_collections_propagates self s e :
  listing_fails self (remote s) e ->
  fst (list_collections self s) = Raised (Exc e) /\
  (forall name size distance, swallows (create_collection self name size distance)) /\
  (forall name q limit fc, swallows (search self name q limit fc)) /\
  (forall name, swallows (get_info self name)) /\
  (forall name, swallows (delete_collection self name)) /\
  (forall name points s' e',
      fst (insert_points self name points s') = Raised (Exc e') ->
      fst (insert_points_loop points [] s') = Raised (Exc e')).
Proof.
  intros Hfail. split; [|repeat split].
  - unfold list_collections. destruct Hfail as [[w Hget] | (cs & w & Hget & Hloop)].
    + run. rewrite Hget. reflexivity.
    + unfold bind, call. rewrite Hget.
      destruct cs as [|c cs]; [inversion Hloop|].
      now apply (list_collections_loop_fails self (c :: cs) w e Hloop).
  - intros; apply create_collection_swallows.
  - intros; apply search_swallows.
  - intros; apply get_info_swallows.
  - intros; apply delete_collection_swallows.
  - intros name points s' e'. apply insert_points_raises_in_loop.
Qed.

(** [main] has no handler around the constructor: what the constructor
    raises ends [main]. *)
Lemma main_constructor_raises s (e : BaseException) s' :
  QdrantManager_init s = (Raised e, s') -> main s = (Raised e, s').
Proof. intros Hinit. unfold main, bind at 1. now rewrite Hinit. Qed.

(** C10. When [QDRANT_PORT] is set to a string that [int] rejects, the
    constructor raises the conversion error at once: nothing has been
    printed, no connection attempted and the host not looked at, whatever
    the rest of the environment; [main] lets the exception through, so the
    process dies of it and not of [sys.exit(1)]. *)
Theorem bad_port_raises s (v : string) :
  environ s !! "QDRANT_PORT" = Some v ->
  py_int v = None ->
  QdrantManager_init s = (Raised (Exc (port_error v)), s) /\
  main s = (Raised (Exc (port_error v)), s).
Proof.
  intros Hset Hbad.
  assert (Hinit : QdrantManager_init s = (Raised (Exc (port_error v)), s)).
  { unfold QdrantManager_init, getenv_port. run. rewrite Hset, Hbad. reflexivity. }
  split; [exact Hinit|]. now apply main_constructor_raises.
Qed.

Lemma getenv_port_readable s :
  port_readable (environ s) -> getenv_port s = (Ok (port_of (environ s)), s).
Proof.
  unfold port_readable, port_of, getenv_port. run.
  destruct (environ s !! "QDRANT_PORT") as [v|]; [|reflexivity].
  intros [n ->]. reflexivity.
Qed.

(** What the constructor does when the port is readable. *)
Lemma QdrantManager_init_cases s :
  port_readable (environ s) ->
  QdrantManager_init s =
  let h := environ s !! "QDRANT_HOST" in
  let p := port_of (environ s) in
  if host_missing h
  then (Raised (SystemExit 1),
        mkProcess (environ s) (remote s)
          (stdout s ++ ["Error: Set QDRANT_HOST environment variable";
                        "Example: export QDRANT_HOST=13.250.25.109"]))
  else match connect_probe h p (remote s) with
       | (inl e, w) =>
           (Raised (SystemExit 1), logged s w ("Connection failed: " +:+ exc_str e))
       | (inr c, w) =>
           (Ok (mkQdrantManager h p c), mkProcess (environ s) w (stdout s))
       end.
Proof.
  intros Hport. unfold QdrantManager_init, connect_probe. run.
  rewrite (getenv_port_readable s Hport).
  destruct (host_missing (environ s !! "QDRANT_HOST")); cbn.
  - rewrite <- app_assoc. reflexivity.
  - destruct (QdrantClient_init _ _ _) as [[e|c] w1]; [reflexivity|]. cbn.
    destruct (client_get_collections c w1) as [[e|cs] w2]; reflexivity.
Qed.

(** C5, amended. When [QDRANT_PORT] is unset or a string [int] accepts, the
    constructor ends the process with status 1 in exactly two situations:
    the host is not supplied (absent or empty), and then the two usage lines
    have been printed and nothing attempted; or the connection attempt
    (building the client and probing it with a list-collections call) fails,
    and then the failure has been printed.  The port used for the attempt is
    6333 when the variable is unset, and the exit of the constructor is the
    exit of [main], with status 1. *)
Theorem constructor_exits s :
  port_readable (environ s) ->
  (fst (QdrantManager_init s) = Raised (SystemExit 1) <->
     host_missing (environ s !! "QDRANT_HOST") = true \/
     exists e w, connect_probe (environ s !! "QDRANT_HOST") (port_of (environ s))
                   (remote s) = (inl e, w)) /\
  (host_missing (environ s !! "QDRANT_HOST") = true ->
     QdrantManager_init s =
     (Raised (SystemExit 1),
      mkProcess (environ s) (remote s)
        (stdout s ++ ["Error: Set QDRANT_HOST environment variable";
                      "Example: export QDRANT_HOST=13.250.25.109"]))) /\
  (host_missing (environ s !! "QDRANT_HOST") = false ->
     forall e w,
       connect_probe (environ s !! "QDRANT_HOST") (port_of (environ s)) (remote s)
         = (inl e, w) ->
       QdrantManager_init s =
       (Raised (SystemExit 1), logged s w ("Connection failed: " +:+ exc_str e))) /\
  (environ s !! "QDRANT_PORT" = None -> port_of (environ s) = 6333) /\
  (fst (QdrantManager_init s) = Raised (SystemExit 1) ->
     exit_status (fst (main s)) = 1).
Proof.
  intros Hport. pose proof (QdrantManager_init_cases s Hport) as Hc. cbn zeta in Hc.
  split; [|split; [|split; [|split]]].
  - rewrite Hc. destruct (host_missing _) eqn:Hhost.
    + split; auto.
    + destruct (connect_probe _ _ _) as [[e|c] w] eqn:Hprobe; cbn [fst].
      * split; [intros _; right; eauto | reflexivity].
      * split; [discriminate | intros [?|(e & w' & ?)]; discriminate].
  - intros Hm. rewrite Hc, Hm. reflexivity.
  - intros Hm e w Hp. rewrite Hc, Hm, Hp. reflexivity.
  - unfold port_of. intros ->. reflexivity.
  - intros Hexit. destruct (QdrantManager_init s) as [o s'] eqn:Hinit.
    cbn [fst] in Hexit. subst o.
    now rewrite (main_constructor_raises s _ s' Hinit).
Qed.

End Properties.

(** ** Properties of the manager in front of the reference service *)

Section OnTheService.

Context `{PyBuiltins}.

Implicit Types (self : QdrantManager (W := gmap string Service.collection))
  (s : process (gmap string Service.collection)).

(** Inserting a hit keeps an upper bound on the scores. *)
Lemma insert_hit_bound (x : Q) (h : ScoredPoint) (hs : list ScoredPoint) :
  (sp_score h <= x)%Q ->
  Forall (fun b => (b <= x)%Q) (map sp_score hs) ->
  Forall (fun b => (b <= x)%Q) (map sp_score (Service.insert_hit h hs)).
Proof.
  intros Hh. induction hs as [|h' hs IH]; cbn [Service.insert_hit map]; intros Hall.
  - constructor; [exact Hh|constructor].
  - inversion Hall as [|? ? Hhd Htl]; subst.
    destruct (Qle_bool (sp_score h') (sp_score h)); cbn [map].
    + constructor; [exact Hh|]. constructor; assumption.
    + constructor; [exact Hhd|]. now apply IH.
Qed.

(** The ranking of the service orders hits by descending score. *)
Lemma insert_hit_descending (h : ScoredPoint) (hs : list ScoredPoint) :
  descending (map sp_score hs) -> descending (map sp_score (Service.insert_hit h hs)).
Proof.
  unfold descending. induction hs as [|h' hs IH]; intros Hs.
  - repeat constructor.
  - inversion Hs as [|? ? Hs' Hall]; subst.
    cbn [Service.insert_hit]. destruct (Qle_bool (sp_score h') (sp_score h)) eqn:Hle.
    + apply Qle_bool_iff in Hle. cbn [map]. constructor; [exact Hs|].
      constructor; [exact Hle|].
      eapply Forall_impl; [exact Hall|]. cbn. intros a Ha.
      now apply Qle_trans with (sp_score h').
    + assert (Hlt : (sp_score h < sp_score h')%Q).
      { apply Qnot_le_lt. intros Hc. apply Qle_bool_iff in Hc. congruence. }
      cbn [map]. constructor; [now apply IH|].
      apply insert_hit_bound; [now apply Qlt_le_weak|exact Hall].
Qed.

Lemma rank_descending (hs : list ScoredPoint) : descending (map sp_score (Service.rank hs)).
Proof.
  induction hs as [|h hs IH]; cbn; [constructor|].
  now apply insert_hit_descending.
Qed.

Lemma filter_all {A} (l : list A) : List.filter (fun _ => true) l = l.
Proof. induction l as [|a l IH]; [reflexivity|]. cbn. now rewrite IH. Qed.

Lemma create_fresh self (name : string) (size : Z) (distance : string) s :
  remote s !! name = None -> 0 < size ->
  create_collection self name size distance s =
  (Ok tt, logged s (<[name := Service.mkCollection
                               (mkVectorParams size (enumerated_distance distance)) []]>
                      (remote s))
            ("Created collection: " +:+ name)).
Proof.
  intros Hfresh Hsize. rewrite create_collection_cases, distance_map_enumerated.
  cbn [client_create_collection Service.library]. unfold Service.create. rewrite Hfresh.
  cbn [vp_size]. destruct (Z.ltb_spec 0 size) as [_|]; [reflexivity|lia].
Qed.

Lemma insert_into self (name : string) (points : list dict)
    (qps : list PointStruct) (c : Service.collection) (ps : list Service.point) s :
  remote s !! name = Some c ->
  Forall2 forwarded points qps ->
  Service.points_of (vp_size (Service.col_params c)) qps = Some ps ->
  insert_points self name points s =
  (Ok tt, logged s (<[name := Service.mkCollection (Service.col_params c)
                               (fold_left (fun acc p => Service.upsert_point p acc) ps
                                  (Service.col_points c))]> (remote s))
            ("Inserted " +:+ py_str (VInt (Z.of_nat (length points))) +:+ " points")).
Proof.
  intros Hc Hfw Hps.
  rewrite (insert_points_cases _ _ _ qps _ (insert_points_loop_forwarded _ _ Hfw [] s)).
  cbn [client_upsert Service.library]. unfold Service.upsert. rewrite Hc, Hps. reflexivity.
Qed.

Lemma search_in self (name : string) (q : list Q) (limit : Z) (c : Service.collection) s :
  remote s !! name = Some c ->
  Z.of_nat (length q) = vp_size (Service.col_params c) ->
  search self name q limit None s =
  (Ok (map search_result
         (firstn (Z.to_nat limit)
            (Service.rank (map (Service.hit (vp_distance (Service.col_params c)) q)
                              (Service.col_points c))))), s).
Proof.
  intros Hc Hdim. rewrite search_cases. unfold search_attempt.
  cbn [search_filter client_search Service.library]. unfold Service.search.
  rewrite Hc, Hdim, Z.eqb_refl. cbn [Service.passes]. rewrite filter_all.
  destruct s; reflexivity.
Qed.

Lemma get_info_of self (name : string) (c : Service.collection) s :
  remote s !! name = Some c ->
  get_info self name s =
  (Ok (Some [("points_count", VInt (Z.of_nat (length (Service.col_points c))));
             ("vector_size", VInt (vp_size (Service.col_params c)));
             ("distance", VStr (Distance_str (vp_distance (Service.col_params c))))]), s).
Proof.
  intros Hc. unfold get_info, try_except, bind, call, ret.
  cbn [client_get_collection Service.library]. unfold Service.get_collection. rewrite Hc. cbn.
  destruct s; reflexivity.
Qed.

Lemma sample_forwarded : Forall2 forwarded sample_data sample_structs.
Proof. repeat constructor; eexists _, _; repeat split; reflexivity. Qed.

(** C1, amended. On the reference service, when no ["python_demo"] exists
    yet, the demo steps of [main] (create the 4-dimensional dot-product
    collection, insert the three sample points, search for
    [0.1, 0.2, 0.3, 0.4] with limit 2) return exactly two results in
    descending order of dot-product score: id 2 with score 7/10, then id 3
    with score 17/50. *)
Theorem demo_search_results self s :
  remote s !! demo_collection = None ->
  exists results,
    fst (demo_search self s) = Ok results /\
    length results = 2%nat /\
    descending (map result_score results) /\
    map result_id results = [VInt 2; VInt 3] /\
    map result_score results = [7 # 10; 17 # 50]%Q.
Proof.
  intros Hfresh. exists demo_results. split; [|split; [|split; [|split]]];
    try reflexivity.
  - unfold demo_search.
    unfold bind at 1. rewrite create_fresh by (trivial; lia).
    unfold bind at 1.
    erewrite insert_into; [| apply lookup_insert_eq | apply sample_forwarded | reflexivity ].
    unfold bind at 1, print at 1.
    erewrite search_in; [| apply lookup_insert_eq | reflexivity ].
    reflexivity.
  - cbn. repeat constructor. discriminate.
Qed.

(** C6, amended.  On the reference service, for every collection name that
    is not on the server yet and every positive vector size,
    [create_collection] followed by [get_info] on the same name returns a
    mapping whose vector dimensionality is the size supplied. *)
Theorem create_then_get_info self (name : string) (size : Z) (distance : string) s :
  remote s !! name = None -> 0 < size ->
  exists info,
    fst (get_info self name (snd (create_collection self name size distance s)))
      = Ok (Some info) /\
    dict_lookup info "vector_size" = Some (VInt size).
Proof.
  intros Hfresh Hsize. rewrite create_fresh by assumption. cbn [snd].
  rewrite (get_info_of self name
             (Service.mkCollection (mkVectorParams size (enumerated_distance distance)) [])).
  - eexists. split; reflexivity.
  - cbn. apply lookup_insert_eq.
Qed.

End OnTheService.

(** ** Concrete runs *)

Section Runs.

#[local] Existing Instance Builtins.reference.

(** The whole of [main] against a reference service with no collection. *)
Example main_on_fresh_server :
  let (o, s) := main fresh_server in
  exit_status o = 0 /\
  stdout s =
    ["Collections:"; "No collections found";
     nl +:+ "Demo - Creating new collection:";
     "Created collection: python_demo"; "Inserted 3 points";
     nl +:+ "Searching python_demo:";
     "1. ID: 2, Score: 0.700"; "   {'name': 'item_2', 'category': 'B'}";
     "2. ID: 3, Score: 0.340"; "   {'name': 'item_3', 'category': 'A'}";
     "Deleted collection: python_demo"] /\
  remote s = ∅.
Proof. vm_compute. repeat split. Qed.

(** C1, the claim as stated fails: on a reference service with no
    collection the demo search does not put id 1 on top; the dot product of
    the query with the vector of id 1 is 3/10, below the 7/10 of id 2 and
    the 17/50 of id 3, so id 1 is not returned at all. *)
Lemma demo_top_is_not_point_1 :
  ~ (exists top rest,
       fst (demo_search Service.manager fresh_server) = Ok (top :: rest) /\
       result_id top = VInt 1) /\
  map result_id
    (match fst (demo_search Service.manager fresh_server) with
     | Ok results => results
     | Raised _ => []
     end) = [VInt 2; VInt 3] /\
  Service.score DOT demo_query [0.1; 0.2; 0.3; 0.4]%Q = (3 # 10)%Q /\
  Service.score DOT demo_query [0.5; 0.6; 0.7; 0.8]%Q = (7 # 10)%Q /\
  Service.score DOT demo_query [0.9; 0.1; 0.5; 0.2]%Q = (17 # 50)%Q.
Proof.
  assert (Hrun : fst (demo_search Service.manager fresh_server) = Ok demo_results)
    by (vm_compute; reflexivity).
  rewrite Hrun. repeat split; try reflexivity.
  intros (top & rest & [= <- <-] & Hid). discriminate Hid.
Qed.

Lemma demo_search_results_witness :
  remote fresh_server !! demo_collection = None /\
  exists results,
    fst (demo_search Service.manager fresh_server) = Ok results /\
    length results = 2%nat /\
    descending (map result_score results) /\
    map result_id results = [VInt 2; VInt 3] /\
    map result_score results = [7 # 10; 17 # 50]%Q.
Proof.
  split; [reflexivity|].
  apply (demo_search_results Service.manager fresh_server). reflexivity.
Defined.

(** C3, the claim as stated fails: a point without an identifier makes
    [insert_points] raise [KeyError] to its caller, before any upsert (the
    scripted reply is still pending) and with nothing printed. *)
Lemma insert_points_without_id_raises :
  insert_points Scripted.manager demo_collection [point_without_id] accepting_upsert
  = (Raised (Exc (KeyError "id")), accepting_upsert).
Proof. reflexivity. Qed.

Lemma insert_points_forwards_witness :
  Forall2 (forwarded (W := list Scripted.reply)) sample_data sample_structs /\
  insert_points Scripted.manager demo_collection sample_data accepting_upsert
  = (Ok tt, mkProcess host_env [] ["Inserted 3 points"]).
Proof.
  assert (Hfw : Forall2 (forwarded (W := list Scripted.reply)) sample_data sample_structs)
    by (repeat constructor; eexists _, _; repeat split; reflexivity).
  split; [exact Hfw|].
  rewrite (insert_points_forwards Scripted.manager demo_collection
             sample_data sample_structs accepting_upsert Hfw).
  reflexivity.
Defined.

Lemma search_failure_is_empty_witness :
  search_attempt Service.manager "missing" demo_query 5 None (remote fresh_server)
    = (inl (Service.not_found "missing"), ∅) /\
  search Service.manager "missing" demo_query 5 None fresh_server
    = (Ok [], logged fresh_server ∅
                ("Search failed: Not found: Collection `missing` doesn't exist!")).
Proof.
  split; [reflexivity|].
  apply (search_failure_is_empty Service.manager "missing" demo_query 5 None
           fresh_server (Service.not_found "missing") ∅).
  reflexivity.
Defined.

(** C5, the claim as stated fails: with no host supplied and a port that
    is not a number, the constructor does not take the exit path: it raises
    [ValueError], with no usage line printed. *)
Lemma constructor_bad_port_no_exit :
  host_missing (environ bad_port_only !! "QDRANT_HOST") = true /\
  QdrantManager_init bad_port_only
  = (Raised (Exc (mkException "ValueError"
                    "invalid literal for int() with base 10: 'abc'")),
     bad_port_only) /\
  fst (QdrantManager_init bad_port_only) <> Raised (SystemExit 1) /\
  stdout (snd (QdrantManager_init bad_port_only)) = [].
Proof. repeat split. discriminate. Qed.

Lemma constructor_exits_witness :
  port_readable (environ unreachable) /\
  QdrantManager_init unreachable
  = (Raised (SystemExit 1),
     mkProcess host_env [] ["Connection failed: [Errno 111] Connection refused"]).
Proof.
  assert (Hport : port_readable (environ unreachable)) by exact I.
  split; [exact Hport|].
  destruct (constructor_exits unreachable Hport) as (_ & _ & Hprobe & _ & _).
  apply (Hprobe eq_refl Scripted.refused []). reflexivity.
Defined.

(** C6, the claim as stated fails: on a reference service that already has
    an 8-dimensional ["docs"], creating ["docs"] with size 4 fails, which is
    only printed, and [get_info] still reports dimensionality 8. *)
Lemma create_existing_keeps_dimension :
  create_collection Service.manager "docs" 4 "Cosine" server_with_docs
  = (Ok tt, logged server_with_docs (remote server_with_docs)
              "Failed to create collection: Wrong input: Collection `docs` already exists!") /\
  fst (get_info Service.manager "docs"
         (snd (create_collection Service.manager "docs" 4 "Cosine" server_with_docs)))
  = Ok (Some [("points_count", VInt 0); ("vector_size", VInt 8);
              ("distance", VStr "Cosine")]).
Proof. split; reflexivity. Qed.

Lemma create_then_get_info_witness :
  remote fresh_server !! "docs" = None /\ 0 < 4 /\
  exists info,
    fst (get_info Service.manager "docs"
           (snd (create_collection Service.manager "docs" 4 "Euclidean" fresh_server)))
      = Ok (Some info) /\
    dict_lookup info "vector_size" = Some (VInt 4).
Proof.
  split; [reflexivity|]. split; [lia|].
  apply (create_then_get_info Service.manager "docs" 4 "Euclidean" fresh_server);
    [reflexivity|lia].
Defined.

Lemma delete_collection_twice_witness :
  client_delete_collection (client Service.manager) demo_collection
    (remote (snd (delete_collection Service.manager demo_collection server_with_demo)))
    = (inl (Service.not_found demo_collection), ∅) /\
  fst (delete_collection Service.manager demo_collection server_with_demo) = Ok tt /\
  delete_collection Service.manager demo_collection
    (snd (delete_collection Service.manager demo_collection server_with_demo))
  = (Ok tt,
     mkProcess host_env ∅
       ["Deleted collection: python_demo";
        "Failed to delete collection: Not found: Collection `python_demo` doesn't exist!"]).
Proof.
  assert (Hsecond :
    client_delete_collection (client Service.manager) demo_collection
      (remote (snd (delete_collection Service.manager demo_collection server_with_demo)))
    = (inl (Service.not_found demo_collection), ∅)) by (vm_compute; reflexivity).
  split; [exact Hsecond|].
  destruct (delete_collection_twice Service.manager demo_collection server_with_demo
              _ _ Hsecond) as [Hfirst Htwice].
  split; [exact Hfirst|]. rewrite Htwice. vm_compute. reflexivity.
Defined.

Lemma list_collections_none_witness :
  client_get_collections (client Service.manager) (remote fresh_server) = (inr [], ∅) /\
  list_collections Service.manager fresh_server
  = (Ok [], logged fresh_server ∅ "No collections found").
Proof.
  split; [reflexivity|].
  apply (list_collections_none Service.manager fresh_server ∅). reflexivity.
Defined.

Lemma list_collections_propagates_witness :
  listing_fails Scripted.manager (remote vanishing_collection) Scripted.refused /\
  listing_fails Scripted.manager (remote unreachable) Scripted.refused /\
  fst (list_collections Scripted.manager vanishing_collection)
    = Raised (Exc Scripted.refused) /\
  fst (list_collections Scripted.manager unreachable) = Raised (Exc Scripted.refused).
Proof.
  assert (Hloop : listing_fails Scripted.manager (remote vanishing_collection)
                    Scripted.refused).
  { right. eexists _, _. split; [reflexivity|].
    eapply fetch_fails_later; [reflexivity|].
    eapply fetch_fails_here. reflexivity. }
  assert (Hcall : listing_fails Scripted.manager (remote unreachable) Scripted.refused).
  { left. eexists. reflexivity. }
  split; [exact Hloop|]. split; [exact Hcall|]. split.
  - apply (list_collections_propagates Scripted.manager vanishing_collection
             Scripted.refused Hloop).
  - apply (list_collections_propagates Scripted.manager unreachable
             Scripted.refused Hcall).
Defined.

Lemma bad_port_raises_witness :
  environ bad_port_with_host !! "QDRANT_PORT" = Some "abc" /\
  py_int "abc" = None /\
  main bad_port_with_host
  = (Raised (Exc (mkException "ValueError"
                    "invalid literal for int() with base 10: 'abc'")),
     bad_port_with_host).
Proof.
  assert (Hset : environ bad_port_with_host !! "QDRANT_PORT" = Some "abc")
    by reflexivity.
  assert (Hbad : py_int "abc" = None) by reflexivity.
  split; [exact Hset|]. split; [exact Hbad|].
  destruct (bad_port_raises bad_port_with_host "abc" Hset Hbad) as [_ Hmain].
  exact Hmain.
Defined.

End Runs.

(** ** Further properties of the manager, for every client library *)

Section MoreProperties.

Context {W : Type} `{PyBuiltins} `{QdrantLibrary W}.

Implicit Types (self : QdrantManager) (s : process W) (e : Exception).

Ltac exec :=
  unfold try_except, bind, call, print, lift, raise, ret, sys_exit, getenv, logged;
  cbn [fst snd environ remote stdout].

(** X1. When the library describes the collection and it has a single
    vector space, [get_info] returns the three entries just as the library
    reports them (point count, vector size, metric as a string), prints
    nothing, and makes no other call. *)
Theorem get_info_reports self (name : string) s (info : CollectionInfo)
    (p : VectorParams) (w : W) :
  client_get_collection (client self) name (remote s) = (inr info, w) ->
  ci_vectors info = VectorsSingle p ->
  get_info self name s =
  (Ok (Some [("points_count", ci_points_count info);
             ("vector_size", VInt (vp_size p));
             ("distance", VStr (Distance_str (vp_distance p)))]),
   mkProcess (environ s) w (stdout s)).
Proof.
  intros Hget Hvec. unfold get_info, vectors_attr. exec.
  rewrite Hget. cbn. rewrite Hvec. reflexivity.
Qed.

(** X2. When the library call of [get_info] fails, the result is [None],
    never an exception, and the failure is printed. *)
Theorem get_info_failure self (name : string) s e (w : W) :
  client_get_collection (client self) name (remote s) = (inl e, w) ->
  get_info self name s
  = (Ok None, logged s w ("Failed to get info: " +:+ exc_str e)).
Proof.
  intros Hget. unfold get_info. exec. rewrite Hget. reflexivity.
Qed.

(** X3. For a collection whose vectors are a dictionary of named vector
    spaces, reading [.size] fails inside the [try]: [get_info] returns
    [None] and prints the attribute error, although the library call
    succeeded. *)
Theorem get_info_named_vectors self (name : string) s (info : CollectionInfo)
    (ps : list (string * VectorParams)) (w : W) :
  client_get_collection (client self) name (remote s) = (inr info, w) ->
  ci_vectors info = VectorsNamed ps ->
  get_info self name s
  = (Ok None,
     logged s w "Failed to get info: 'dict' object has no attribute 'size'").
Proof.
  intros Hget Hvec. unfold get_info, vectors_attr. exec.
  rewrite Hget. cbn. rewrite Hvec. reflexivity.
Qed.

(** The loop of [list_collections] when every info fetch succeeds. *)
Lemma list_collections_loop_lists self (cs : list CollectionDescription) :
  forall acc s (infos : list CollectionInfo) (w : W),
    fetch_infos self cs (remote s) = (inr infos, w) ->
    list_collections_loop self cs acc s
    = (Ok (acc ++ map cd_name cs),
       mkProcess (environ s) w (stdout s ++ listing_lines cs infos)).
Proof.
  induction cs as [|c cs IH]; intros acc s infos w; cbn [fetch_infos].
  - intros [= <- <-]. cbn. exec. rewrite !app_nil_r. destruct s; reflexivity.
  - destruct (client_get_collection _ _ _) as [[e|i] w1] eqn:Hget; [discriminate|].
    destruct (fetch_infos self cs w1) as [[e|infos'] w2] eqn:Hrest; [discriminate|].
    intros [= <- <-]. cbn [list_collections_loop]. exec. rewrite Hget. cbn.
    rewrite (IH _ _ infos' w2) by exact Hrest. cbn [environ stdout map listing_lines].
    unfold listing_line. now rewrite <- !app_assoc.
Qed.

(** X4. When the server lists at least one collection and every info fetch
    succeeds, [list_collections] returns the names in the server's order and
    prints one summary line per collection, in that order. *)
Theorem list_collections_lists self s (c : CollectionDescription)
    (cs : list CollectionDescription) (infos : list CollectionInfo) (w1 w2 : W) :
  client_get_collections (client self) (remote s) = (inr (c :: cs), w1) ->
  fetch_infos self (c :: cs) w1 = (inr infos, w2) ->
  list_collections self s
  = (Ok (map cd_name (c :: cs)),
     mkProcess (environ s) w2 (stdout s ++ listing_lines (c :: cs) infos)) /\
  length (listing_lines (c :: cs) infos) = length (c :: cs).
Proof.
  intros Hget Hfetch. split.
  - unfold list_collections, bind, call. rewrite Hget.
    now rewrite (list_collections_loop_lists self (c :: cs) []
                   (mkProcess (environ s) w1 (stdout s)) infos w2 Hfetch).
  - clear Hget. revert infos w1 w2 Hfetch. generalize (c :: cs) as l. clear c cs.
    induction l as [|c cs IH]; intros infos w1 w2; cbn [fetch_infos]; [reflexivity|].
    destruct (client_get_collection _ _ _) as [[e|i] w'] eqn:Hget; [discriminate|].
    destruct (fetch_infos self cs w') as [[e|infos'] w''] eqn:Hrest; [discriminate|].
    intros [= <- <-]. cbn. f_equal. exact (IH infos' w' w'' Hrest).
Qed.

(** X5. When the underlying search succeeds, [search] returns one
    dictionary per hit, in the library's order, carrying the hit's
    identifier and score unchanged, and prints nothing. *)
Theorem search_returns_hits self (name : string) (q : list Q) (limit : Z)
    (filter_condition : option dict) s (hits : list ScoredPoint) (w : W) :
  search_attempt self name q limit filter_condition (remote s) = (inr hits, w) ->
  search self name q limit filter_condition s
    = (Ok (map search_result hits), mkProcess (environ s) w (stdout s)) /\
  map result_id (map search_result hits) = map sp_id hits /\
  map result_score (map search_result hits) = map sp_score hits /\
  map (fun r => dict_lookup r "payload") (map search_result hits)
    = map (fun h => Some (sp_payload h)) hits.
Proof.
  intros Hok. rewrite search_cases, Hok. split; [reflexivity|].
  rewrite !map_map. repeat split; apply map_ext; reflexivity.
Qed.

(** X6. An empty filter dictionary is no filter: [search] then does exactly
    what it does without one. *)
Theorem search_empty_filter self (name : string) (q : list Q) (limit : Z) s :
  search self name q limit (Some []) s = search self name q limit None s.
Proof. reflexivity. Qed.

(** X7. When the filter dictionary is rejected by the filter constructor,
    [search] returns the empty sequence without calling the library's
    search: the remote side is as before, and only the failure is
    printed. *)
Theorem search_rejected_filter self (name : string) (q : list Q) (limit : Z)
    (kv : string * value) (kvs : dict) s e :
  Filter_init (kv :: kvs) = inl e ->
  search self name q limit (Some (kv :: kvs)) s
  = (Ok [], logged s (remote s) ("Search failed: " +:+ exc_str e)).
Proof.
  intros Hbad. rewrite search_cases. unfold search_attempt, search_filter.
  rewrite Hbad. reflexivity.
Qed.

(** X8. An empty list of points is not short-circuited: [insert_points]
    still sends one upsert, with an empty batch, and reports zero points on
    success. *)
Theorem insert_points_empty self (collection_name : string) s :
  insert_points self collection_name [] s =
  match client_upsert (client self) collection_name [] (remote s) with
  | (inr _, w) =>
      (Ok tt, logged s w ("Inserted " +:+ py_str (VInt 0) +:+ " points"))
  | (inl e, w) => (Ok tt, logged s w ("Failed to insert points: " +:+ exc_str e))
  end.
Proof. now apply insert_points_cases. Qed.

(** The loop of [insert_points] never touches the process state. *)
Lemma insert_points_loop_state (points : list dict) :
  forall acc s, snd (insert_points_loop points acc s) = s.
Proof.
  induction points as [|point points IH]; intros acc s; [reflexivity|].
  cbn [insert_points_loop]. unfold getitem. exec.
  destruct (dict_lookup point "id") as [i|]; [|reflexivity]. cbn.
  destruct (dict_lookup point "vector") as [v|]; [|reflexivity]. cbn.
  destruct (PointStruct_init _ _ _) as [e|qp]; [reflexivity|]. cbn.
  destruct (insert_points_loop points (acc ++ [qp]) s) as [[qps|b] s'] eqn:Hloop;
    specialize (IH (acc ++ [qp]) s); rewrite Hloop in IH; exact IH.
Qed.

(** The loop of [insert_points] on well-formed points followed by one that
    lacks a key. *)
Lemma insert_points_loop_missing (good : list dict) (qps : list PointStruct)
    (bad : dict) (rest : list dict) (k : string) :
  Forall2 forwarded good qps ->
  (dict_lookup bad "id" = None /\ k = "id") \/
  (dict_lookup bad "id" <> None /\ dict_lookup bad "vector" = None /\ k = "vector") ->
  forall acc s,
    insert_points_loop (good ++ bad :: rest) acc s = (Raised (Exc (KeyError k)), s).
Proof.
  intros Hgood Hbad.
  induction Hgood as [|point qp good qps (i & v & Hi & Hv & Hp) _ IH]; intros acc s.
  - cbn [app insert_points_loop]. unfold getitem. exec.
    destruct Hbad as [[Hid ->] | (Hid & Hvec & ->)].
    + rewrite Hid. reflexivity.
    + destruct (dict_lookup bad "id") as [i|]; [|contradiction]. cbn.
      rewrite Hvec. reflexivity.
  - cbn [app insert_points_loop]. unfold getitem. exec.
    rewrite Hi; cbn. rewrite Hv; cbn. rewrite dict_get_payload, Hp; cbn.
    apply IH.
Qed.

(** X9. One input point without an ['id'] key, or with one but without a
    ['vector'] key, makes [insert_points] raise [KeyError] for that key,
    wherever the point stands in the list: the well-formed points before it
    are not sent, nothing is printed and the remote side is not
    contacted. *)
Theorem insert_points_missing_key self (collection_name : string)
    (good : list dict) (qps : list PointStruct) (bad : dict) (rest : list dict)
    (k : string) s :
  Forall2 forwarded good qps ->
  (dict_lookup bad "id" = None /\ k = "id") \/
  (dict_lookup bad "id" <> None /\ dict_lookup bad "vector" = None /\ k = "vector") ->
  insert_points self collection_name (good ++ bad :: rest) s
  = (Raised (Exc (KeyError k)), s).
Proof.
  intros Hgood Hbad. unfold insert_points, bind at 1.
  now rewrite (insert_points_loop_missing good qps bad rest k Hgood Hbad [] s).
Qed.

(** X10. Whenever [insert_points] ends with an exception, of whatever kind,
    the process is exactly as before the call: no upsert was sent and
    nothing was printed. *)
Theorem insert_points_raise_leaves_state self (collection_name : string)
    (points : list dict) s (b : BaseException) :
  fst (insert_points self collection_name points s) = Raised b ->
  snd (insert_points self collection_name points s) = s.
Proof.
  unfold insert_points. exec.
  pose proof (insert_points_loop_state points [] s) as Hstate.
  destruct (insert_points_loop points [] s) as [[qps|b'] s'] eqn:Hloop;
    cbn [snd] in Hstate; subst s'.
  - destruct (client_upsert _ _ _ _) as [[e|u] w]; discriminate.
  - reflexivity.
Qed.

(** X11. When the port is readable, the host supplied and the connection
    attempt succeeds, the constructor returns a manager holding the host
    and port read from the environment and the client just built; it
    prints nothing, and a port given as a string [int] accepts is the port
    used. *)
Theorem constructor_succeeds s (c : QdrantClient) (w : W) :
  port_readable (environ s) ->
  host_missing (environ s !! "QDRANT_HOST") = false ->
  connect_probe (environ s !! "QDRANT_HOST") (port_of (environ s)) (remote s)
    = (inr c, w) ->
  QdrantManager_init s
    = (Ok (mkQdrantManager (environ s !! "QDRANT_HOST") (port_of (environ s)) c),
       mkProcess (environ s) w (stdout s)) /\
  (forall v n, environ s !! "QDRANT_PORT" = Some v -> py_int v = Some n ->
               port_of (environ s) = n).
Proof.
  intros Hport Hhost Hprobe. split.
  - rewrite (QdrantManager_init_cases s Hport). cbn zeta.
    now rewrite Hhost, Hprobe.
  - intros v n Hv Hn. unfold port_of. now rewrite Hv, Hn.
Qed.

(** The second printing loop of [main] on results built by [search]. *)
Lemma print_demo_results_run (fmt : Q -> string) (hits : list ScoredPoint) :
  (forall x, py_format_3f (VFloat x) = inr (fmt x)) ->
  forall i s,
    print_demo_results i (map search_result hits) s
    = (Ok tt, mkProcess (environ s) (remote s) (stdout s ++ demo_lines fmt i hits)).
Proof.
  intros Hfmt. induction hits as [|h hits IH]; intros i s.
  - cbn. exec. rewrite app_nil_r. destruct s; reflexivity.
  - cbn [map print_demo_results]. unfold getitem, search_result at 1 2 3. cbn.
    exec. rewrite Hfmt. cbn. rewrite IH. cbn [environ remote stdout demo_lines].
    unfold hit_line, payload_line. now rewrite <- !app_assoc.
Qed.

(** The first printing loop of [main] on results built by [search]. *)
Lemma print_test_results_run (fmt : Q -> string) (hits : list ScoredPoint) :
  (forall x, py_format_3f (VFloat x) = inr (fmt x)) ->
  forall i s,
    print_test_results i (map search_result hits) s
    = (Ok tt, mkProcess (environ s) (remote s) (stdout s ++ test_lines fmt i hits)).
Proof.
  intros Hfmt. induction hits as [|h hits IH]; intros i s.
  - cbn. exec. rewrite app_nil_r. destruct s; reflexivity.
  - cbn [map print_test_results]. unfold getitem, search_result at 1 2 3 4. cbn.
    exec. rewrite Hfmt. cbn. destruct (truthy (sp_payload h)); cbn;
      rewrite IH; cbn [environ remote stdout test_lines];
      unfold hit_line, payload_line; now rewrite <- !app_assoc.
Qed.

(** X12. On results built by [search], and when formatting a float to
    three decimals succeeds, the second printing loop of [main] returns
    normally having printed exactly two lines per result, numbered from the
    given index: the id-and-score line, then the payload line. *)
Theorem print_demo_results_lines (fmt : Q -> string) (hits : list ScoredPoint)
    (i : Z) s :
  (forall x, py_format_3f (VFloat x) = inr (fmt x)) ->
  print_demo_results i (map search_result hits) s
    = (Ok tt, mkProcess (environ s) (remote s) (stdout s ++ demo_lines fmt i hits)) /\
  length (demo_lines fmt i hits) = (2 * length hits)%nat.
Proof.
  intros Hfmt. split; [now apply print_demo_results_run|].
  revert i. induction hits as [|h hits IH]; intros i; [reflexivity|].
  cbn [demo_lines length]. rewrite IH. lia.
Qed.

(** X13. The first printing loop of [main] prints the id-and-score line of
    every result but the payload line only of results whose payload is
    truthy: a hit without payload, or with an empty one, gets one line. *)
Theorem print_test_results_lines (fmt : Q -> string) (hits : list ScoredPoint)
    (i : Z) s :
  (forall x, py_format_3f (VFloat x) = inr (fmt x)) ->
  print_test_results i (map search_result hits) s
    = (Ok tt, mkProcess (environ s) (remote s) (stdout s ++ test_lines fmt i hits)) /\
  length (test_lines fmt i hits)
    = (length hits + length (List.filter (fun h => truthy (sp_payload h)) hits))%nat.
Proof.
  intros Hfmt. split; [now apply print_test_results_run|].
  revert i. induction hits as [|h hits IH]; intros i; [reflexivity|].
  cbn [test_lines length List.filter]. rewrite length_app, IH.
  destruct (truthy (sp_payload h)); cbn [length]; lia.
Qed.

(** [main], cut after the listing. *)
Lemma main_unfold s :
  main s =
  match QdrantManager_init s with
  | (Ok qdrant, s1) =>
      match list_collections qdrant (logged s1 (remote s1) "Collections:") with
      | (Ok collections, s2) => main_after_listing qdrant collections s2
      | (Raised b, s2) => (Raised b, s2)
      end
  | (Raised b, s1) => (Raised b, s1)
  end.
Proof.
  unfold main, main_after_listing. unfold bind at 1.
  destruct (QdrantManager_init s) as [[qdrant|b] s1]; [|reflexivity].
  unfold bind at 1. unfold print at 1. unfold bind at 1. unfold logged.
  destruct (list_collections qdrant _) as [[collections|b] s2]; reflexivity.
Qed.

(** A failing listing makes [list_collections] raise. *)
Lemma list_collections_raises self s e :
  listing_fails self (remote s) e ->
  fst (list_collections self s) = Raised (Exc e).
Proof.
  intros [[w Hget] | (cs & w & Hget & Hloop)]; unfold list_collections.
  - exec. rewrite Hget. reflexivity.
  - unfold bind, call. rewrite Hget.
    destruct cs as [|c cs]; [inversion Hloop|].
    now apply (list_collections_loop_fails self (c :: cs) w e Hloop).
Qed.

(** X14. Once the manager is built, a failure of the listing is fatal to
    [main]: the exception the library raised ends the run, with exit status
    1, before anything of the demo is attempted. *)
Theorem main_dies_on_listing_failure s (qdrant : QdrantManager) (s1 : process W) e :
  QdrantManager_init s = (Ok qdrant, s1) ->
  listing_fails qdrant (remote s1) e ->
  fst (main s) = Raised (Exc e) /\
  exit_status (fst (main s)) = 1 /\
  snd (main s) = snd (list_collections qdrant (logged s1 (remote s1) "Collections:")).
Proof.
  intros Hinit Hfail. rewrite main_unfold, Hinit.
  pose proof (list_collections_raises qdrant
                (logged s1 (remote s1) "Collections:") e Hfail) as Hraise.
  destruct (list_collections qdrant _) as [o s2]. cbn [fst] in Hraise. subst o.
  repeat split.
Qed.

Lemma returns_ret {A} (P : A -> Prop) (a : A) : P a -> returns_with (W := W) P (ret a).
Proof. intros Ha s. now exists a, s. Qed.

Lemma returns_print (line : string) :
  returns_with (W := W) (fun _ => True) (print line).
Proof. intros s. eexists tt, _. split; [reflexivity|exact I]. Qed.

Lemma returns_bind {A B} (P : A -> Prop) (Q' : B -> Prop) (m : M W A) (k : A -> M W B) :
  returns_with P m -> (forall a, P a -> returns_with Q' (k a)) ->
  returns_with Q' (bind m k).
Proof.
  intros Hm Hk s. destruct (Hm s) as (a & s1 & Hrun & Ha).
  destruct (Hk a Ha s1) as (b & s2 & Hrun' & Hb).
  exists b, s2. split; [|exact Hb]. unfold bind. now rewrite Hrun.
Qed.

Lemma returns_weaken {A} (P P' : A -> Prop) (m : M W A) :
  (forall a, P a -> P' a) -> returns_with P m -> returns_with P' m.
Proof.
  intros Himp Hm s. destruct (Hm s) as (a & s' & Hrun & Ha). eauto.
Qed.

Lemma returns_create_collection self (name : string) (size : Z) (distance : string) :
  returns_with (fun _ => True) (create_collection self name size distance).
Proof.
  intros s. rewrite create_collection_cases.
  destruct (client_create_collection _ _ _ _) as [[e|b] w]; eexists tt, _; auto.
Qed.

Lemma returns_delete_collection self (name : string) :
  returns_with (fun _ => True) (delete_collection self name).
Proof.
  intros s. rewrite delete_collection_cases.
  destruct (client_delete_collection _ _ _) as [[e|b] w]; eexists tt, _; auto.
Qed.

Lemma returns_search self (name : string) (q : list Q) (limit : Z)
    (filter_condition : option dict) :
  returns_with (fun results => exists hits, results = map search_result hits)
    (search self name q limit filter_condition).
Proof.
  intros s. rewrite search_cases.
  destruct (search_attempt _ _ _ _ _ _) as [[e|hits] w]; eexists _, _.
  - split; [reflexivity|]. now exists [].
  - split; [reflexivity|]. now exists hits.
Qed.

Lemma returns_insert_points self (name : string) (points : list dict)
    (qps : list PointStruct) :
  Forall2 forwarded points qps ->
  returns_with (fun _ => True) (insert_points self name points).
Proof.
  intros Hfw s.
  rewrite (insert_points_cases self name points qps s
             (insert_points_loop_forwarded _ _ Hfw [] s)).
  destruct (client_upsert _ _ _ _) as [[e|u] w]; eexists tt, _; auto.
Qed.

Lemma returns_print_demo_results (fmt : Q -> string) (i : Z) (results : list dict) :
  (forall x, py_format_3f (VFloat x) = inr (fmt x)) ->
  (exists hits, results = map search_result hits) ->
  returns_with (W := W) (fun _ => True) (print_demo_results i results).
Proof.
  intros Hfmt [hits ->] s. rewrite (print_demo_results_run fmt hits Hfmt).
  eexists tt, _. auto.
Qed.

Lemma returns_print_test_results (fmt : Q -> string) (i : Z) (results : list dict) :
  (forall x, py_format_3f (VFloat x) = inr (fmt x)) ->
  (exists hits, results = map search_result hits) ->
  returns_with (W := W) (fun _ => True) (print_test_results i results).
Proof.
  intros Hfmt [hits ->] s. rewrite (print_test_results_run fmt hits Hfmt).
  eexists tt, _. auto.
Qed.

Lemma returns_main_after_listing (fmt : Q -> string) (qps : list PointStruct)
    (qdrant : QdrantManager) (collections : list string) :
  (forall x, py_format_3f (VFloat x) = inr (fmt x)) ->
  Forall2 forwarded sample_data qps ->
  returns_with (fun _ => True) (main_after_listing qdrant collections).
Proof.
  intros Hfmt Hfw. unfold main_after_listing, demo_search.
  eapply returns_bind with (P := fun _ => True).
  { destruct (str_in "test_collection" collections); [|now apply returns_ret].
    eapply returns_bind; [apply returns_print|]. intros _ _.
    eapply returns_bind; [apply returns_search|]. intros results Hres.
    now apply (returns_print_test_results fmt). }
  intros _ _. eapply returns_bind; [apply returns_print|]. intros _ _.
  eapply returns_bind with (P := fun results => exists hits, results = map search_result hits).
  { eapply returns_bind; [apply returns_create_collection|]. intros _ _.
    eapply returns_bind; [apply (returns_insert_points _ _ _ qps Hfw)|]. intros _ _.
    eapply returns_bind; [apply returns_print|]. intros _ _.
    apply returns_search. }
  intros results Hres.
  eapply returns_bind; [now apply (returns_print_demo_results fmt)|]. intros _ _.
  apply returns_delete_collection.
Qed.

(** X15. Once the manager is built and the listing has returned, [main]
    runs to its end with exit status 0 whatever the library then does
    (a failed creation, upsert, search or deletion is only printed),
    provided the point constructor accepts the three sample points and
    formatting a float to three decimals succeeds. *)
Theorem main_completes s (qdrant : QdrantManager) (s1 : process W)
    (collections : list string) (fmt : Q -> string) (qps : list PointStruct) :
  QdrantManager_init s = (Ok qdrant, s1) ->
  fst (list_collections qdrant (logged s1 (remote s1) "Collections:"))
    = Ok collections ->
  (forall x, py_format_3f (VFloat x) = inr (fmt x)) ->
  Forall2 forwarded sample_data qps ->
  fst (main s) = Ok tt /\ exit_status (fst (main s)) = 0.
Proof.
  intros Hinit Hlist Hfmt Hfw. rewrite main_unfold, Hinit.
  destruct (list_collections qdrant _) as [o s2]. cbn [fst] in Hlist. subst o.
  destruct (returns_main_after_listing fmt qps qdrant collections Hfmt Hfw s2)
    as ([] & s3 & -> & _).
  split; reflexivity.
Qed.
























End MoreProperties.

(** ** Further concrete runs *)

Section MoreRuns.

#[local] Existing Instance Builtins.reference.

Lemma get_info_reports_witness :
  client_get_collection (client Scripted.manager) "docs" (remote one_info)
    = (inr (mkCollectionInfo (VInt 5) (VectorsSingle (mkVectorParams 4 EUCLID))), []) /\
  get_info Scripted.manager "docs" one_info
    = (Ok (Some [("points_count", VInt 5); ("vector_size", VInt 4);
                 ("distance", VStr "Euclid")]),
       mkProcess host_env [] []).
Proof.
  split; [reflexivity|].
  exact (get_info_reports Scripted.manager "docs" one_info _ _ [] eq_refl eq_refl).
Defined.

Lemma get_info_failure_witness :
  client_get_collection (client Scripted.manager) "docs" (remote unreachable)
    = (inl Scripted.refused, []) /\
  get_info Scripted.manager "docs" unreachable
    = (Ok None,
       mkProcess host_env [] ["Failed to get info: [Errno 111] Connection refused"]).
Proof.
  split; [reflexivity|].
  exact (get_info_failure Scripted.manager "docs" unreachable _ [] eq_refl).
Defined.

Lemma get_info_named_vectors_witness :
  client_get_collection (client Scripted.manager) "images" (remote named_vectors)
    = (inr (mkCollectionInfo (VInt 5)
              (VectorsNamed [("image", mkVectorParams 512 COSINE)])), []) /\
  get_info Scripted.manager "images" named_vectors
    = (Ok None,
       mkProcess host_env []
         ["Failed to get info: 'dict' object has no attribute 'size'"]).
Proof.
  split; [reflexivity|].
  exact (get_info_named_vectors Scripted.manager "images" named_vectors _ _ []
           eq_refl eq_refl).
Defined.

Lemma list_collections_lists_witness :
  fst (client_get_collections (client Scripted.manager) (remote two_collections))
    = inr [mkCollectionDescription "a"; mkCollectionDescription "b"] /\
  list_collections Scripted.manager two_collections
    = (Ok ["a"; "b"], mkProcess host_env [] ["a: 3 points"; "b: None points"]).
Proof.
  split; [reflexivity|].
  exact (proj1 (list_collections_lists Scripted.manager two_collections
                  _ _ _ _ [] eq_refl eq_refl)).
Defined.

Lemma search_returns_hits_witness :
  search_attempt Scripted.manager "docs" demo_query 5 None (remote answering_search)
    = (inr two_hits, []) /\
  search Scripted.manager "docs" demo_query 5 None answering_search
    = (Ok [[("id", VInt 7); ("score", VFloat (9 # 10));
            ("payload", VDict [("name", VStr "x")])];
           [("id", VStr "u-1"); ("score", VFloat (1 # 2)); ("payload", VNone)]],
       mkProcess host_env [] []).
Proof.
  split; [reflexivity|].
  exact (proj1 (search_returns_hits Scripted.manager "docs" demo_query 5 None
                  answering_search two_hits [] eq_refl)).
Defined.

Lemma search_rejected_filter_witness :
  Filter_init (QdrantLibrary := Service.library) bogus_filter
    = inl (Service.invalid "Filter") /\
  search Service.manager "docs" demo_query 5 (Some bogus_filter) server_with_docs
    = (Ok [], logged server_with_docs (remote server_with_docs)
                "Search failed: validation error for Filter").
Proof.
  split; [reflexivity|].
  exact (search_rejected_filter Service.manager "docs" demo_query 5
           ("bogus", VNone) [] server_with_docs _ eq_refl).
Defined.

Lemma insert_points_missing_key_witness :
  Forall2 (forwarded (W := list Scripted.reply))
    [sample_point 1 [0.1; 0.2; 0.3; 0.4]%Q "item_1" "A"]
    [mkPointStruct (VInt 1) (VList (map VFloat [0.1; 0.2; 0.3; 0.4]%Q))
       (VDict [("name", VStr "item_1"); ("category", VStr "A")])] /\
  insert_points Scripted.manager demo_collection
    ([sample_point 1 [0.1; 0.2; 0.3; 0.4]%Q "item_1" "A"] ++ point_without_vector :: [])
    accepting_upsert
  = (Raised (Exc (KeyError "vector")), accepting_upsert).
Proof.
  assert (Hgood : Forall2 (forwarded (W := list Scripted.reply))
            [sample_point 1 [0.1; 0.2; 0.3; 0.4]%Q "item_1" "A"]
            [mkPointStruct (VInt 1) (VList (map VFloat [0.1; 0.2; 0.3; 0.4]%Q))
               (VDict [("name", VStr "item_1"); ("category", VStr "A")])]).
  { repeat constructor. eexists _, _. repeat split; reflexivity. }
  split; [exact Hgood|].
  apply (insert_points_missing_key Scripted.manager demo_collection _ _
           point_without_vector [] "vector" accepting_upsert Hgood).
  right. repeat split. discriminate.
Defined.

Lemma insert_points_raise_leaves_state_witness :
  fst (insert_points Scripted.manager demo_collection [point_without_id] accepting_upsert)
    = Raised (Exc (KeyError "id")) /\
  snd (insert_points Scripted.manager demo_collection [point_without_id] accepting_upsert)
    = accepting_upsert.
Proof.
  split; [reflexivity|].
  exact (insert_points_raise_leaves_state Scripted.manager demo_collection
           [point_without_id] accepting_upsert _ eq_refl).
Defined.

Lemma constructor_succeeds_witness :
  port_readable (environ custom_port) /\
  QdrantManager_init custom_port
    = (Ok (mkQdrantManager (W := list Scripted.reply) (Some "localhost") 6334 tt),
       mkProcess (environ custom_port) [] []).
Proof.
  assert (Hport : port_readable (environ custom_port)) by (now exists 6334).
  split; [exact Hport|].
  exact (proj1 (constructor_succeeds custom_port tt [] Hport eq_refl eq_refl)).
Defined.

Lemma print_demo_results_lines_witness :
  (forall x, py_format_3f (VFloat x) = inr (Builtins.format_fixed 3 x)) /\
  print_demo_results 1 (map search_result two_hits) accepting_upsert
    = (Ok tt,
       mkProcess host_env [Scripted.Upserted]
         ["1. ID: 7, Score: 0.900"; "   {'name': 'x'}";
          "2. ID: u-1, Score: 0.500"; "   None"]).
Proof.
  assert (Hfmt : forall x, py_format_3f (VFloat x) = inr (Builtins.format_fixed 3 x))
    by reflexivity.
  split; [exact Hfmt|].
  exact (proj1 (print_demo_results_lines (Builtins.format_fixed 3) two_hits 1
                  accepting_upsert Hfmt)).
Defined.

Lemma print_test_results_lines_witness :
  (forall x, py_format_3f (VFloat x) = inr (Builtins.format_fixed 3 x)) /\
  print_test_results 1 (map search_result two_hits) accepting_upsert
    = (Ok tt,
       mkProcess host_env [Scripted.Upserted]
         ["1. ID: 7, Score: 0.900"; "   {'name': 'x'}"; "2. ID: u-1, Score: 0.500"]).
Proof.
  assert (Hfmt : forall x, py_format_3f (VFloat x) = inr (Builtins.format_fixed 3 x))
    by reflexivity.
  split; [exact Hfmt|].
  exact (proj1 (print_test_results_lines (Builtins.format_fixed 3) two_hits 1
                  accepting_upsert Hfmt)).
Defined.

Lemma main_dies_on_listing_failure_witness :
  QdrantManager_init lost_after_probe
    = (Ok Scripted.manager,
       mkProcess host_env [Scripted.Fails Scripted.refused] []) /\
  main lost_after_probe
    = (Raised (Exc Scripted.refused), mkProcess host_env [] ["Collections:"]).
Proof.
  assert (Hinit : QdrantManager_init lost_after_probe
                  = (Ok Scripted.manager,
                     mkProcess host_env [Scripted.Fails Scripted.refused] []))
    by reflexivity.
  split; [exact Hinit|].
  destruct (main_dies_on_listing_failure lost_after_probe _ _ Scripted.refused Hinit)
    as (Hraise & _ & Hstate).
  { left. exists []. reflexivity. }
  rewrite (surjective_pairing (main lost_after_probe)), Hraise, Hstate. reflexivity.
Defined.

Lemma main_completes_witness :
  QdrantManager_init fresh_server = (Ok Service.manager, fresh_server) /\
  fst (main fresh_server) = Ok tt /\
  exit_status (fst (main fresh_server)) = 0.
Proof.
  assert (Hinit : QdrantManager_init fresh_server = (Ok Service.manager, fresh_server))
    by reflexivity.
  split; [exact Hinit|].
  apply (main_completes fresh_server Service.manager fresh_server []
           (Builtins.format_fixed 3) sample_structs Hinit).
  - reflexivity.
  - reflexivity.
  - repeat constructor; eexists _, _; repeat split; reflexivity.
Defined.

End MoreRuns.
